(** * SMQTK-Detection: the object detector interface

    A shallow embedding of [smqtk_detection/interfaces/object_detector.py]:
    the detection UUID scheme ([ObjectDetector._gen_detection_uuid]), the
    generator [ObjectDetector.detect_objects], and the image-matrix
    specialisation [ImageMatrixObjectDetector].

    Conventions of the embedding.
    - A Python [str] is the list of its Unicode code points ([pystr]);
      [bytes(s, "utf8")] is [utf8_encode], which raises on surrogates.
    - A call that may raise returns a [result]; exceptions are the ones
      the module can raise itself.
    - [hashlib.sha1] is embedded bit for bit ([Sha1]).
    - A generator function is a state machine: the call builds the
      generator object, [gen_next] resumes its body up to the next
      [yield]. Calls on collaborators are recorded in a [trace]. *)

From Stdlib Require Import NArith ZArith QArith Strings.String Strings.Ascii.
From stdpp Require Import base tactics option list sorting gmap pretty.

Open Scope N_scope.

(* ================================================================== *)
(** * Python values *)
(* ================================================================== *)

(** A Python [str]: a sequence of code points. *)
Definition pystr : Type := list N.

(** A string literal of the source, from its ASCII spelling. *)
Definition lit (s : string) : pystr :=
  map N_of_ascii (list_ascii_of_string s).

(** The exceptions that can leave the functions of the module. *)
Inductive exn : Type :=
  | ValueError
  | IndexError
  | UnicodeEncodeError
  | TypeError
  | StopIteration.

Inductive result (A : Type) : Type :=
  | Ok (a : A)
  | Raise (e : exn).
Arguments Ok {A} a.
Arguments Raise {A} e.

#[global] Instance result_ret : MRet result := λ A a, Ok a.
#[global] Instance result_bind : MBind result := λ A B f r,
  match r with
  | Ok a => f a
  | Raise e => Raise e
  end.
Definition is_Ok {A} (r : result A) : Prop := ∃ a, r = Ok a.

(** [str(x)], also what an empty replacement field [{}] of [str.format]
    renders for the built-in scalars. *)
Class PyStr (A : Type) := str : A → pystr.
#[global] Hint Mode PyStr ! : typeclass_instances.

#[global] Instance pystr_str : PyStr pystr := λ s, s.
#[global] Instance Z_str : PyStr Z := λ z, lit (pretty z).

(** ** [bytes(s, "utf8")] *)

Definition is_surrogate (c : N) : bool := (0xD800 <=? c) && (c <=? 0xDFFF).

(** The bytes of one code point; [None] where CPython raises
    [UnicodeEncodeError] (a surrogate) or the number is no code point. *)
Definition utf8_encode_char (c : N) : option (list N) :=
  if c <? 0x80 then Some [c]
  else if c <? 0x800 then
    Some [N.lor 0xC0 (N.shiftr c 6); N.lor 0x80 (N.land c 0x3F)]
  else if is_surrogate c then None
  else if c <? 0x10000 then
    Some [N.lor 0xE0 (N.shiftr c 12);
          N.lor 0x80 (N.land (N.shiftr c 6) 0x3F);
          N.lor 0x80 (N.land c 0x3F)]
  else if c <? 0x110000 then
    Some [N.lor 0xF0 (N.shiftr c 18);
          N.lor 0x80 (N.land (N.shiftr c 12) 0x3F);
          N.lor 0x80 (N.land (N.shiftr c 6) 0x3F);
          N.lor 0x80 (N.land c 0x3F)]
  else None.

Fixpoint utf8_encode (s : pystr) : result (list N) :=
  match s with
  | [] => Ok []
  | c :: s' =>
      match utf8_encode_char c with
      | None => Raise UnicodeEncodeError
      | Some bs => rest ← utf8_encode s'; Ok (bs ++ rest)
      end
  end.

(** A code point that UTF-8 can encode: a Unicode scalar value. *)
Definition scalar_value (c : N) : Prop :=
  c < 0x110000 ∧ is_surrogate c = false.

Definition encodable (s : pystr) : Prop := Forall scalar_value s.

(** ** Comparison of strings and [sorted] *)

(** [a <= b] on [str]: lexicographic on code points. *)
Fixpoint pystr_leb (a b : pystr) : bool :=
  match a, b with
  | [], _ => true
  | _ :: _, [] => false
  | x :: a', y :: b' =>
      if x <? y then true
      else if y <? x then false
      else pystr_leb a' b'
  end.

Definition pystr_le (a b : pystr) : Prop := pystr_leb a b = true.

#[global] Instance pystr_le_dec a b : Decision (pystr_le a b).
Proof. unfold pystr_le. apply _. Defined.

(** [sorted(xs)] on strings. *)
Definition sorted (xs : list pystr) : list pystr := merge_sort pystr_le xs.

(** [''.join(xs)]. *)
Definition join (xs : list pystr) : pystr := concat xs.

(** ** [str.format] with auto-numbered empty fields *)

(** The fields of a template are the argument positions they refer to; a
    position past the arguments raises [IndexError], arguments no field
    refers to are ignored. *)
Fixpoint format_fields {A} `{PyStr A} (fields : list nat) (args : list A)
  : result pystr :=
  match fields with
  | [] => Ok []
  | i :: fields' =>
      match args !! i with
      | None => Raise IndexError
      | Some a => rest ← format_fields fields' args; Ok (str a ++ rest)
      end
  end.

(** ['{}{}{}{}'.format( *args )]. *)
Definition format4 {A} `{PyStr A} (args : list A) : result pystr :=
  format_fields [0; 1; 2; 3]%nat args.

(* ================================================================== *)
(** * [hashlib.sha1] *)
(* ================================================================== *)

Module Sha1.

Definition w32 (x : N) : N := x mod 2 ^ 32.
Definition add32 (x y : N) : N := w32 (x + y).
Definition rotl (n x : N) : N :=
  w32 (N.lor (N.shiftl x n) (N.shiftr x (32 - n))).
Definition not32 (x : N) : N := N.lxor x 0xFFFFFFFF.

(** Big-endian bytes of a number, [n] of them. *)
Fixpoint be_bytes (n : nat) (x : N) : list N :=
  match n with
  | O => []
  | S n' => N.shiftr x (8 * N.of_nat n') mod 256 :: be_bytes n' x
  end.

(** The message followed by 0x80, zeros up to 56 mod 64, and the bit
    length on 64 bits. *)
Definition pad (msg : list N) : list N :=
  let len := N.of_nat (length msg) in
  let zeros := (119 - len mod 64) mod 64 in
  msg ++ [0x80] ++ replicate (N.to_nat zeros) 0 ++ be_bytes 8 (8 * len).

Fixpoint words (bs : list N) : list N :=
  match bs with
  | a :: b :: c :: d :: bs' =>
      (N.shiftl a 24 + N.shiftl b 16 + N.shiftl c 8 + d) :: words bs'
  | _ => []
  end.

Fixpoint blocks (n : nat) (ws : list N) : list (list N) :=
  match n with
  | O => []
  | S n' => take 16 ws :: blocks n' (drop 16 ws)
  end.

(** The message schedule, most recent word first: [rev_w !! 0] is
    [w(t-1)]. *)
Fixpoint schedule (n : nat) (rev_w : list N) : list N :=
  match n with
  | O => rev_w
  | S n' =>
      let get i := default 0 (rev_w !! i) in
      let w := rotl 1 (N.lxor (N.lxor (get 2%nat) (get 7%nat))
                              (N.lxor (get 13%nat) (get 15%nat))) in
      schedule n' (w :: rev_w)
  end.

Record state := State { ha : N; hb : N; hc : N; hd : N; he : N }.

Definition init : state :=
  State 0x67452301 0xEFCDAB89 0x98BADCFE 0x10325476 0xC3D2E1F0.

Definition round (t : nat) (w : N) (s : state) : state :=
  let '(State a b c d e) := s in
  let '(f, k) :=
    if (t <? 20)%nat then
      (N.lor (N.land b c) (N.land (not32 b) d), 0x5A827999)
    else if (t <? 40)%nat then
      (N.lxor (N.lxor b c) d, 0x6ED9EBA1)
    else if (t <? 60)%nat then
      (N.lor (N.lor (N.land b c) (N.land b d)) (N.land c d), 0x8F1BBCDC)
    else
      (N.lxor (N.lxor b c) d, 0xCA62C1D6) in
  let tmp := add32 (add32 (add32 (add32 (rotl 5 a) f) e) k) w in
  State tmp a (rotl 30 b) c d.

Fixpoint rounds (t : nat) (ws : list N) (s : state) : state :=
  match ws with
  | [] => s
  | w :: ws' => rounds (S t) ws' (round t w s)
  end.

Definition compress (s : state) (block : list N) : state :=
  let ws := rev (schedule 64 (rev block)) in
  let '(State a b c d e) := rounds 0 ws s in
  State (add32 (ha s) a) (add32 (hb s) b) (add32 (hc s) c)
        (add32 (hd s) d) (add32 (he s) e).

Definition digest_state (msg : list N) : state :=
  let padded := pad msg in
  foldl compress init (blocks (length padded / 64) (words padded)).

(** [.digest()]: 20 bytes. *)
Definition digest (msg : list N) : list N :=
  let '(State a b c d e) := digest_state msg in
  be_bytes 4 a ++ be_bytes 4 b ++ be_bytes 4 c ++ be_bytes 4 d
    ++ be_bytes 4 e.

Definition hex_digit (x : N) : N :=
  if x <? 10 then 48 + x else 87 + x.

(** [.hexdigest()]: 40 lower-case hexadecimal digits. *)
Definition hexdigest (msg : list N) : pystr :=
  flat_map (λ b, [hex_digit (b / 16); hex_digit (b mod 16)]) (digest msg).

End Sha1.

(* ================================================================== *)
(** * Collaborators of the detector *)
(* ================================================================== *)

(** [smqtk_image_io.AxisAlignedBoundingBox]: two 1-D vertex arrays of one
    length, the box's dimensionality; [tolist()] is the list itself. *)
Record AxisAlignedBoundingBox (C : Type) : Type := AABB {
  min_vertex : list C;
  max_vertex : list C;
}.
Arguments AABB {C} _ _.
Arguments min_vertex {C} _.
Arguments max_vertex {C} _.

Definition has_dimension {C} (d : nat) (bbox : AxisAlignedBoundingBox C)
  : Prop :=
  length (min_vertex bbox) = d ∧ length (max_vertex bbox) = d.

(** A classification map, [Dict[Hashable, float]]: the items in insertion
    order, keys distinct. *)
Definition keys {L P} (c_map : list (L * P)) : list L := c_map.*1.

(** A [DataElement], as far as the detector reads it: [content_type()]
    and [str(uuid())]. *)
Record DataElement : Type := {
  content_type : pystr;
  uuid : pystr;
}.

(** Modelled from the spec: the Classification Record of section 3, a
    classification map under an identifier and a type tag, and its
    [set_classification(label_map) -> self] of section 6
    ([smqtk_classifier] is not part of the sources). *)
Record ClassificationElement (L P : Type) : Type := {
  ce_type_name : pystr;
  ce_uuid : pystr;
  ce_classification : option (list (L * P));
}.
Arguments ce_type_name {L P} _.
Arguments ce_uuid {L P} _.
Arguments ce_classification {L P} _.

Definition set_classification {L P} (ce : ClassificationElement L P)
    (m : list (L * P)) : ClassificationElement L P :=
  {| ce_type_name := ce_type_name ce;
     ce_uuid := ce_uuid ce;
     ce_classification := Some m |}.

(** Modelled from the spec: the Detection Record of section 3, a bounding
    box and a Classification Record under an identifier, and its
    [set_detection(bbox, classification_record) -> self] of section 6
    ([detection_element.py] is not part of the sources). *)
Record DetectionElement (C L P : Type) : Type := {
  de_uuid : pystr;
  de_detection :
    option (AxisAlignedBoundingBox C * ClassificationElement L P);
}.
Arguments de_uuid {C L P} _.
Arguments de_detection {C L P} _.

Definition set_detection {C L P} (de : DetectionElement C L P)
    (bbox : AxisAlignedBoundingBox C) (ce : ClassificationElement L P)
  : DetectionElement C L P :=
  {| de_uuid := de_uuid de; de_detection := Some (bbox, ce) |}.

(** Modelled from the spec: the Classification Factory of section 6,
    [new_classification(type_tag, id) -> ClassificationRecord]. *)
Record ClassificationElementFactory (L P : Type) : Type := {
  new_classification : pystr → pystr → ClassificationElement L P;
}.
Arguments new_classification {L P} _ _ _.

(** Modelled from the spec: the Detection Factory of section 6,
    [new_detection(id) -> DetectionRecord]. *)
Record DetectionElementFactory (C L P : Type) : Type := {
  new_detection : pystr → DetectionElement C L P;
}.
Arguments new_detection {C L P} _ _.

(** Modelled from the spec: the default factories create memory-resident
    records, empty until populated. *)
Definition DFLT_CLASSIFIER_FACTORY {L P} : ClassificationElementFactory L P :=
  {| new_classification := λ type_name u,
       {| ce_type_name := type_name; ce_uuid := u;
          ce_classification := None |} |}.

Definition DFLT_DETECTION_FACTORY {C L P} : DetectionElementFactory C L P :=
  {| new_detection := λ u, {| de_uuid := u; de_detection := None |} |}.

(** What section 6 promises of a factory: the record it creates carries
    the identifier (and type tag) it was asked for. *)
Definition classification_factory_ok {L P}
    (f : ClassificationElementFactory L P) : Prop :=
  ∀ type_name u,
    ce_type_name (new_classification f type_name u) = type_name
    ∧ ce_uuid (new_classification f type_name u) = u.

Definition detection_factory_ok {C L P}
    (f : DetectionElementFactory C L P) : Prop :=
  ∀ u, de_uuid (new_detection f u) = u.

(** The iterator protocol: [next(it)] gives an item and the advanced
    iterator, or [None] for [StopIteration]. *)
Class Iterator (It A : Type) := iter_next : It → option (A * It).
#[global] Hint Mode Iterator ! - : typeclass_instances.

(** [iter(xs)] for a list. *)
#[global] Instance list_iterator {A} : Iterator (list A) A := λ xs,
  match xs with
  | [] => None
  | x :: xs' => Some (x, xs')
  end.

(** The items an iterator gives before it stops. *)
Inductive yields {It A} `{Iterator It A} : It → list A → Prop :=
  | yields_stop it :
      iter_next it = None → yields it []
  | yields_item it x it' xs :
      iter_next it = Some (x, it') → yields it' xs → yields it (x :: xs).

(** The items an iterator gives first, and the iterator it is then; the
    iterator need not stop afterwards, or ever. *)
Inductive pulls {It A} `{Iterator It A} : It → list A → It → Prop :=
  | pulls_nil it : pulls it [] it
  | pulls_cons it x it' xs it'' :
      iter_next it = Some (x, it') → pulls it' xs it'' →
      pulls it (x :: xs) it''.

(** Calls on collaborators, in the order they happen. *)
Inductive event : Type :=
  | E_raise_valid_element (data_element : DataElement)
  | E_detect_objects (data_element : DataElement)
  | E_iter_next
  | E_new_classification (type_name det_uuid : pystr)
  | E_set_classification (det_uuid : pystr)
  | E_new_detection (det_uuid : pystr)
  | E_set_detection (det_uuid : pystr).

Definition trace : Type := list event.

Definition is_factory_call (e : event) : bool :=
  match e with
  | E_new_classification _ _ | E_set_classification _
  | E_new_detection _ | E_set_detection _ => true
  | _ => false
  end.

Definition is_raw_detection_call (e : event) : bool :=
  match e with
  | E_detect_objects _ | E_iter_next => true
  | _ => false
  end.

(* ================================================================== *)
(** * [class ObjectDetector] *)
(* ================================================================== *)

Module ObjectDetector.

(** An instance, as the methods the base class leaves to the concrete
    class: [valid_content_types] and [is_valid_element] (from
    [ContentTypeValidator], which a subclass may override) and the
    abstract [_detect_objects]. *)
Record t (It : Type) : Type := Build {
  valid_content_types : list pystr;
  is_valid_element : DataElement → bool;
  _detect_objects : DataElement → option It;
}.
Arguments Build {It} _ _ _.
Arguments valid_content_types {It} _.
Arguments is_valid_element {It} _ _.
Arguments _detect_objects {It} _ _.

(** Modelled from the spec: the Content Validator capability of
    section 6; [is_valid_element] of a class that does not override it
    tests the content type against [valid_content_types()]. *)
Definition default_is_valid_element (types : list pystr)
    (data_element : DataElement) : bool :=
  bool_decide (content_type data_element ∈ types).

(** Modelled from the spec: [raise_valid_element(data)] of section 6
    fails with InvalidInput, a [ValueError], if the element is not
    valid. *)
Definition raise_valid_element {It} (self : t It)
    (data_element : DataElement) : result DataElement :=
  if is_valid_element self data_element then Ok data_element
  else Raise ValueError.

Section uuid.
Context {C L : Type} `{!PyStr C, !PyStr L}.

(** The string that is hashed (the local [hashable]). *)
Definition hashable (data_uuid : pystr) (bbox : AxisAlignedBoundingBox C)
    (labels : list L) : result pystr :=
  vertices ← format4 (min_vertex bbox ++ max_vertex bbox);
  Ok (data_uuid ++ vertices ++ join (sorted (map str labels))).

Definition _gen_detection_uuid (data_uuid : pystr)
    (bbox : AxisAlignedBoundingBox C) (labels : list L) : result pystr :=
  h ← hashable data_uuid bbox labels;
  b ← utf8_encode h;
  Ok (Sha1.hexdigest b).

End uuid.

(** The plain decimal form of a number, as section 4.1 of the
    specification asks of a vertex component: the decimal digits, most
    significant first, no leading zero, a minus sign before a negative
    number. Written digit by digit, independently of [str]:
    [decimal_digits] puts the digits of [n] before [acc], [fuel] bounding
    their number. *)
Fixpoint decimal_digits (fuel : nat) (n : N) (acc : pystr) : pystr :=
  match fuel with
  | O => acc
  | S fuel' =>
      if n =? 0 then acc
      else decimal_digits fuel' (n / 10) (48 + n mod 10 :: acc)
  end.

Definition plain_decimal_N (n : N) : pystr :=
  if n =? 0 then [48] else decimal_digits (N.to_nat (N.size n)) n [].

Definition plain_decimal (z : Z) : pystr :=
  match z with
  | Z0 => [48]
  | Zpos q => plain_decimal_N (Npos q)
  | Zneg q => 45 :: plain_decimal_N (Npos q)
  end.

Section spec_uuid.
Context {L : Type} `{!PyStr L}.

(** The identifier as section 4.1 of the specification words it: the
    provenance string, then all the vertex components in plain decimal
    form, minimum vertex first, then the string-coerced labels sorted and
    joined; the whole hashed. Stated from the specification, to be
    compared with [_gen_detection_uuid]. *)
Definition spec_concatenation (p : pystr) (bbox : AxisAlignedBoundingBox Z)
    (labels : list L) : pystr :=
  p ++ join (map plain_decimal (min_vertex bbox ++ max_vertex bbox))
    ++ join (sorted (map str labels)).

Definition spec_derive_id (p : pystr) (bbox : AxisAlignedBoundingBox Z)
    (labels : list L) : result pystr :=
  b ← utf8_encode (spec_concatenation p bbox labels);
  Ok (Sha1.hexdigest b).

End spec_uuid.

(** The local [type_str]. *)
Definition type_str : pystr := lit "object detection classification".

(** The calls of one turn of the loop that reaches its [yield], for the
    detection identifier [det_uuid]. *)
Definition yield_calls (det_uuid : pystr) : trace :=
  [E_iter_next;
   E_new_classification type_str det_uuid;
   E_set_classification det_uuid;
   E_new_detection det_uuid;
   E_set_detection det_uuid].

Section detect_objects.
Context {C L P It : Type} `{!PyStr C, !PyStr L}.
Context `{!Iterator It (AxisAlignedBoundingBox C * list (L * P))}.

(** The arguments of a call, kept in the generator's frame. *)
Record frame : Type := Frame {
  self : t It;
  data_element : DataElement;
  de_factory : DetectionElementFactory C L P;
  ce_factory : ClassificationElementFactory L P;
}.

(** The generator object [detect_objects] returns: not yet started,
    suspended at the [yield] with the locals [de_uuid] and [dets]
    alive, or finished (returned or raised). *)
Inductive generator : Type :=
  | Created (args : frame)
  | Suspended (args : frame) (de_uuid : pystr) (dets : It)
  | Finished.

(** The outcome of resuming the body: the value of [next(g)] or the
    exception it raises, the generator afterwards, and the calls
    made. *)
Definition resumed : Type :=
  result (DetectionElement C L P) * generator * trace.

(** One turn of [for bbox, c_map in dets: ... yield de]. *)
Definition loop (args : frame) (de_uuid : pystr) (dets : It) (tr : trace)
  : resumed :=
  match iter_next dets with
  | None => (Raise StopIteration, Finished, tr ++ [E_iter_next])
  | Some ((bbox, c_map), dets') =>
      match _gen_detection_uuid de_uuid bbox (keys c_map) with
      | Raise e => (Raise e, Finished, tr ++ [E_iter_next])
      | Ok det_uuid =>
          let ce :=
            new_classification (ce_factory args) type_str det_uuid in
          let ce := set_classification ce c_map in
          let de :=
            set_detection (new_detection (de_factory args) det_uuid)
                          bbox ce in
          (Ok de, Suspended args de_uuid dets',
           tr ++ [E_iter_next;
                  E_new_classification type_str det_uuid;
                  E_set_classification det_uuid;
                  E_new_detection det_uuid;
                  E_set_detection det_uuid])
      end
  end.

(** The body up to the loop, run by the first [next]. *)
Definition start (args : frame) (tr : trace) : resumed :=
  let tr := tr ++ [E_raise_valid_element (data_element args)] in
  match raise_valid_element (self args) (data_element args) with
  | Raise e => (Raise e, Finished, tr)
  | Ok _ =>
      let de_uuid := str (uuid (data_element args)) in
      let tr := tr ++ [E_detect_objects (data_element args)] in
      match _detect_objects (self args) (data_element args) with
      | None => (Raise StopIteration, Finished, tr)
      | Some dets => loop args de_uuid dets tr
      end
  end.

(** [next(g)]. *)
Definition gen_next (g : generator) (tr : trace) : resumed :=
  match g with
  | Created args => start args tr
  | Suspended args de_uuid dets => loop args de_uuid dets tr
  | Finished => (Raise StopIteration, Finished, tr)
  end.

(** The call itself. The body contains [yield], so the function is a
    generator function: the call binds the arguments and returns the
    generator object; no statement of the body runs, nothing is
    raised and [None] is never the result. *)
Definition detect_objects (self : t It) (data_element : DataElement)
    (de_factory : DetectionElementFactory C L P)
    (ce_factory : ClassificationElementFactory L P) (tr : trace)
  : result (option generator) * trace :=
  (Ok (Some (Created (Frame self data_element de_factory ce_factory))),
   tr).

(** A consumer: [next] until the generator stops or raises, at most
    [fuel] times. The elements received, how iteration ended ([None]
    when the fuel ran out first), and the calls made. *)
Fixpoint consume (fuel : nat) (g : generator) (tr : trace)
  : list (DetectionElement C L P) * option exn * trace :=
  match fuel with
  | O => ([], None, tr)
  | S fuel' =>
      match gen_next g tr with
      | (Ok de, g', tr') =>
          let '(des, e, tr'') := consume fuel' g' tr' in
          (de :: des, e, tr'')
      | (Raise e, _, tr') => ([], Some e, tr')
      end
  end.

(** A caller that calls [next(g)] [n] times, whatever each call gives:
    the values and exceptions in order, the generator afterwards and the
    calls made. *)
Fixpoint nexts (n : nat) (g : generator) (tr : trace)
  : list (result (DetectionElement C L P)) * generator * trace :=
  match n with
  | O => ([], g, tr)
  | S n' =>
      let '(r, g', tr') := gen_next g tr in
      let '(rs, g'', tr'') := nexts n' g' tr' in
      (r :: rs, g'', tr'')
  end.

End detect_objects.

Arguments frame : clear implicits.
Arguments generator : clear implicits.

(** A detection element as the loop body leaves it for the raw detection
    [raw] of a data element with provenance [data_uuid]: populated with
    the box and with a classification element that holds the map, both
    under the identifier [_gen_detection_uuid] derives. *)
Definition assembled {C L P} `{!PyStr C, !PyStr L} (data_uuid : pystr)
    (raw : AxisAlignedBoundingBox C * list (L * P))
    (de : DetectionElement C L P) : Prop :=
  ∃ det_uuid ce,
    _gen_detection_uuid data_uuid raw.1 (keys raw.2) = Ok det_uuid
    ∧ de_uuid de = det_uuid
    ∧ de_detection de = Some (raw.1, ce)
    ∧ ce_classification ce = Some raw.2
    ∧ ce_uuid ce = det_uuid
    ∧ ce_type_name ce = type_str.

(** Two raw detections with the same box and the same set of labels. *)
Definition same_box_and_labels {C L P}
    (raw1 raw2 : AxisAlignedBoundingBox C * list (L * P)) : Prop :=
  raw1.1 = raw2.1
  ∧ NoDup (keys raw1.2) ∧ NoDup (keys raw2.2)
  ∧ ∀ k, k ∈ keys raw1.2 ↔ k ∈ keys raw2.2.

End ObjectDetector.

(* ================================================================== *)
(** * [class ImageMatrixObjectDetector] *)
(* ================================================================== *)

(** Modelled from the spec: the Image Reader capability of section 6
    ([smqtk_image_io] is not part of the sources). *)
Module ImageReader.

Record t (Mat : Type) : Type := Build {
  valid_content_types : list pystr;
  is_valid_element : DataElement → bool;
  load_as_matrix : DataElement → option Mat;
}.
Arguments Build {Mat} _ _ _.
Arguments valid_content_types {Mat} _.
Arguments is_valid_element {Mat} _ _.
Arguments load_as_matrix {Mat} _ _.

End ImageReader.

(** Configuration dictionaries live in a heap of dict objects, so that
    two names for one dict see each other's writes. *)
Module Heap.

Definition loc : Type := positive.

(** A value of a configuration: JSON scalars, a reference to a dict
    object, or (after construction) a plugin instance. *)
Inductive value (Inst : Type) : Type :=
  | VNone
  | VBool (b : bool)
  | VInt (z : Z)
  | VStr (s : pystr)
  | VRef (l : loc)
  | VInst (i : Inst).
Arguments VNone {Inst}.
Arguments VBool {Inst} _.
Arguments VInt {Inst} _.
Arguments VStr {Inst} _.
Arguments VRef {Inst} _.
Arguments VInst {Inst} _.

Abbreviation dict Inst := (gmap pystr (value Inst)).
Abbreviation heap Inst := (gmap loc (gmap pystr (value Inst))).

(** A computation on the heap that may raise; the heap survives an
    exception. *)
Definition M (Inst A : Type) : Type := heap Inst → result A * heap Inst.

Definition ret {Inst A} (a : A) : M Inst A := λ h, (Ok a, h).
Definition bind {Inst A B} (m : M Inst A) (k : A → M Inst B) : M Inst B :=
  λ h, match m h with
       | (Ok a, h') => k a h'
       | (Raise e, h') => (Raise e, h')
       end.

(** A new dict object with the given items. *)
Definition alloc {Inst} (d : dict Inst) : M Inst loc :=
  λ h, let l := fresh (dom h) in (Ok l, <[l := d]> h).

(** [dict(d)]: a new dict object with the items of [d]. *)
Definition dict_copy {Inst} (l : loc) : M Inst loc :=
  λ h, match h !! l with
       | Some d => alloc d h
       | None => (Raise TypeError, h)
       end.

(** [d.get(k, dflt)]. *)
Definition dict_get {Inst} (l : loc) (k : pystr) (dflt : value Inst)
  : M Inst (value Inst) :=
  λ h, match h !! l with
       | Some d => (Ok (default dflt (d !! k)), h)
       | None => (Raise TypeError, h)
       end.

(** [d[k] = v]. *)
Definition dict_setitem {Inst} (l : loc) (k : pystr) (v : value Inst)
  : M Inst unit :=
  λ h, match h !! l with
       | Some d => (Ok (), <[l := <[k := v]> d]> h)
       | None => (Raise TypeError, h)
       end.

End Heap.

Notation "x ←ₕ m ; k" := (Heap.bind m (λ x, k))
  (at level 20, m at level 100, k at level 200, only parsing).

Module ImageMatrixObjectDetector.

Import Heap.

(** An instance: the stored [_image_reader] and the abstract
    [_detect_objects_matrix]. *)
Record t (Mat It : Type) : Type := Build {
  _image_reader : ImageReader.t Mat;
  _detect_objects_matrix : Mat → It;
}.
Arguments Build {Mat It} _ _.
Arguments _image_reader {Mat It} _.
Arguments _detect_objects_matrix {Mat It} _ _.

Section methods.
Context {Mat It : Type}.

Definition valid_content_types (self : t Mat It) : list pystr :=
  ImageReader.valid_content_types (_image_reader self).

Definition is_valid_element (self : t Mat It)
    (data_element : DataElement) : bool :=
  ImageReader.is_valid_element (_image_reader self) data_element.

Definition _detect_objects (self : t Mat It) (data : DataElement)
  : option It :=
  match ImageReader.load_as_matrix (_image_reader self) data with
  | None => None
  | Some mat => Some (_detect_objects_matrix self mat)
  end.

(** The instance seen through the base class, with the overrides in
    place. *)
Definition as_ObjectDetector (self : t Mat It) : ObjectDetector.t It :=
  ObjectDetector.Build (valid_content_types self)
    (is_valid_element self) (_detect_objects self).

End methods.

Section from_config.
(** [Inst] are the instances configuration can construct; the two
    collaborators of [smqtk_core] are taken as they come:
    [from_config_dict(config, ImageReader.get_impls())] and the
    inherited [from_config(config_dict, merge_default)]. *)
Context {Inst : Type}.
Variable from_config_dict : value Inst → M Inst Inst.
Variable super_from_config : loc → bool → M Inst Inst.

Definition image_reader_key : pystr := lit "image_reader".

Definition from_config (config_dict : loc) (merge_default : bool)
  : M Inst Inst :=
  (* Shallow copy *)
  config_dict ←ₕ dict_copy config_dict;
  empty ←ₕ alloc ∅;
  nested ←ₕ dict_get config_dict image_reader_key (VRef empty);
  reader ←ₕ from_config_dict nested;
  _ ←ₕ dict_setitem config_dict image_reader_key (VInst reader);
  super_from_config config_dict merge_default.

End from_config.

Section get_default_config.
(** The collaborators of [smqtk_core], taken as they come: the inherited
    [get_default_config()], which returns a dict, and
    [make_default_config(ImageReader.get_impls())]. *)
Context {Inst : Type}.
Variable super_get_default_config : M Inst loc.
Variable make_default_config : M Inst (value Inst).

Definition get_default_config : M Inst loc :=
  default ←ₕ super_get_default_config;
  nested ←ₕ make_default_config;
  _ ←ₕ dict_setitem default image_reader_key nested;
  ret default.

End get_default_config.

Section get_config.
(** [to_config_dict(self._image_reader)] of [smqtk_core], taken as it
    comes; [image_reader] is the stored [self._image_reader]. *)
Context {Inst : Type}.
Variable to_config_dict : Inst → M Inst (value Inst).

Definition get_config (image_reader : Inst) : M Inst loc :=
  nested ←ₕ to_config_dict image_reader;
  alloc {[ image_reader_key := nested ]}.

End get_config.

End ImageMatrixObjectDetector.

(* ================================================================== *)
(** * Sample collaborators *)
(* ================================================================== *)

Module Sample.

(** Boxes with integer coordinates, string labels, probabilities as
    rationals, raw detections from a list. *)
Definition raw : Type := AxisAlignedBoundingBox Z * list (pystr * Q).

Definition png : DataElement :=
  {| content_type := lit "image/png"; uuid := lit "abc123" |}.

Definition txt : DataElement :=
  {| content_type := lit "text/plain"; uuid := lit "abc123" |}.

Definition cat_dog : raw :=
  (AABB [0; 0] [10; 10], [(lit "cat", 9 # 10); (lit "dog", 1 # 10)])%Z.

Definition dog_cat : raw :=
  (AABB [0; 0] [10; 10], [(lit "dog", 1 # 2); (lit "cat", 1 # 2)])%Z.

Definition segment : raw :=
  (AABB [0] [10], [(lit "cat", 9 # 10)])%Z.

(** A detector of PNG images that reports the given raw detections. *)
Definition detector (dets : option (list raw)) : ObjectDetector.t (list raw) :=
  ObjectDetector.Build [lit "image/png"]
    (ObjectDetector.default_is_valid_element [lit "image/png"])
    (λ _, dets).

Definition call (dets : option (list raw)) (data_element : DataElement)
  : result (option (ObjectDetector.generator Z pystr Q (list raw))) * trace :=
  ObjectDetector.detect_objects (detector dets) data_element
    DFLT_DETECTION_FACTORY DFLT_CLASSIFIER_FACTORY [].

(** The generator that call returns. *)
Definition gen (dets : option (list raw)) (data_element : DataElement)
  : ObjectDetector.generator Z pystr Q (list raw) :=
  ObjectDetector.Created
    (ObjectDetector.Frame (detector dets) data_element
       DFLT_DETECTION_FACTORY DFLT_CLASSIFIER_FACTORY).

(** An endless raw detection step: the [n]-th item is a cat in the box
    (0,0)-(n,n). The iterator is the number of the next item. *)
Definition nth_cat (n : nat) : raw :=
  (AABB [0; 0] [Z.of_nat n; Z.of_nat n], [(lit "cat", 1 # 1)])%Z.

Record endless : Type := Endless { position : nat }.

#[global] Instance endless_iterator : Iterator endless raw := λ it,
  Some (nth_cat (position it), Endless (S (position it))).

Definition endless_detector : ObjectDetector.t endless :=
  ObjectDetector.Build [lit "image/png"]
    (ObjectDetector.default_is_valid_element [lit "image/png"])
    (λ _, Some (Endless 0)).

(** A reader of PNG images that decodes every element but the one with
    provenance ["broken"], and a matrix detector that reports a cat and a
    dog in whatever image it is given. *)
Definition matrix : Type := list (list Z).

Definition broken : DataElement :=
  {| content_type := lit "image/png"; uuid := lit "broken" |}.

Definition reader : ImageReader.t matrix :=
  ImageReader.Build [lit "image/png"]
    (ObjectDetector.default_is_valid_element [lit "image/png"])
    (λ d, if bool_decide (uuid d = lit "broken") then None
          else Some [[0; 0]; [0; 0]]%Z).

Definition matrix_detector : ImageMatrixObjectDetector.t matrix (list raw) :=
  ImageMatrixObjectDetector.Build reader (λ _, [cat_dog]).

(** Configuration collaborators over instances that are just names: a
    reader is configured by its name, a block that is not a name does not
    resolve, and the inherited constructor returns the reader it is
    handed. *)
Definition to_config_dict : pystr → Heap.M pystr (Heap.value pystr) :=
  λ image_reader h, (Ok (Heap.VStr image_reader), h).

Definition from_config_dict : Heap.value pystr → Heap.M pystr pystr :=
  λ v h, match v with
         | Heap.VStr name => (Ok name, h)
         | _ => (Raise ValueError, h)
         end.

Definition super_from_config : Heap.loc → bool → Heap.M pystr pystr :=
  λ l _ h,
    match h !! l with
    | Some d =>
        match d !! ImageMatrixObjectDetector.image_reader_key with
        | Some (Heap.VInst image_reader) => (Ok image_reader, h)
        | _ => (Raise TypeError, h)
        end
    | None => (Raise TypeError, h)
    end.

End Sample.

(* ================================================================== *)
(** * Well-formed inputs *)
(* ================================================================== *)

(** Values whose [str] never contains a surrogate: numbers, and strings
    that are encodable to begin with. *)
Class EncodableStr (A : Type) `{!PyStr A} : Prop :=
  str_encodable : ∀ a : A, encodable (str a).

(* ================================================================== *)
(** * Properties of the Python primitives *)
(* ================================================================== *)

(** Test vectors of FIPS 180 for the digest. *)
Example sha1_abc :
  Sha1.hexdigest (lit "abc")
  = lit "a9993e364706816aba3e25717850c26c9cd0d89d".
Proof. vm_compute. reflexivity. Qed.

Example sha1_empty :
  Sha1.hexdigest [] = lit "da39a3ee5e6b4b0d3255bfef95601890afd80709".
Proof. vm_compute. reflexivity. Qed.

Example sha1_fox :
  Sha1.hexdigest (lit "The quick brown fox jumps over the lazy dog")
  = lit "2fd4e1c67a2d28fced849ee1bb76e7391b93eb12".
Proof. vm_compute. reflexivity. Qed.

Example sha1_two_blocks :
  Sha1.hexdigest
    (lit "abcdbcdecdefdefgefghfghighijhijkijkljklmklmnlmnomnopnopq")
  = lit "84983e441c3bd26ebaae4aa1f95129e5e54670f1".
Proof. vm_compute. reflexivity. Qed.

Section string_order.

Lemma pystr_leb_refl a : pystr_leb a a = true.
Proof.
  induction a as [|x a IH]; simpl; [done|].
  rewrite N.ltb_irrefl. exact IH.
Qed.

Lemma pystr_leb_total a b : pystr_leb a b = true ∨ pystr_leb b a = true.
Proof.
  revert b. induction a as [|x a IH]; intros [|y b]; simpl; auto.
  destruct (N.ltb_spec x y), (N.ltb_spec y x); auto; lia.
Qed.

Lemma pystr_leb_antisym a b :
  pystr_leb a b = true → pystr_leb b a = true → a = b.
Proof.
  revert b. induction a as [|x a IH]; intros [|y b]; simpl; try done.
  destruct (N.ltb_spec x y), (N.ltb_spec y x); try done; try lia.
  intros Hab Hba. assert (x = y) as -> by lia.
  f_equal. by apply IH.
Qed.

Lemma pystr_leb_trans a b c :
  pystr_leb a b = true → pystr_leb b c = true → pystr_leb a c = true.
Proof.
  revert b c. induction a as [|x a IH]; intros [|y b] [|z c]; simpl;
    try done.
  destruct (N.ltb_spec x y), (N.ltb_spec y x), (N.ltb_spec y z),
    (N.ltb_spec z y), (N.ltb_spec x z), (N.ltb_spec z x);
    try done; try lia.
  apply IH.
Qed.

#[global] Instance pystr_le_total : Total pystr_le.
Proof. intros a b. apply pystr_leb_total. Qed.

#[global] Instance pystr_le_trans : Transitive pystr_le.
Proof. intros a b c. apply pystr_leb_trans. Qed.

#[global] Instance pystr_le_antisym : AntiSymm (=) pystr_le.
Proof. intros a b. apply pystr_leb_antisym. Qed.

Lemma sorted_Sorted xs : Sorted pystr_le (sorted xs).
Proof. apply (Sorted_merge_sort pystr_le). Qed.

Lemma sorted_Permutation xs : sorted xs ≡ₚ xs.
Proof. apply (merge_sort_Permutation pystr_le). Qed.

(** [sorted] sees a collection only up to the order of its items. *)
Lemma sorted_perm xs ys : xs ≡ₚ ys → sorted xs = sorted ys.
Proof.
  intros Hp. apply (Sorted_unique pystr_le); try apply sorted_Sorted.
  by rewrite !sorted_Permutation.
Qed.

End string_order.

Section strings.

Lemma lit_inj s1 s2 : lit s1 = lit s2 → s1 = s2.
Proof.
  unfold lit. intros Heq.
  rewrite <- (string_of_list_ascii_of_string s1),
          <- (string_of_list_ascii_of_string s2).
  f_equal. revert Heq.
  generalize (list_ascii_of_string s1), (list_ascii_of_string s2).
  induction l as [|a l IH]; intros [|b l']; simpl; intros [=]; [done|].
  f_equal; [|by apply IH].
  rewrite <- (ascii_N_embedding a), <- (ascii_N_embedding b). congruence.
Qed.

Lemma lit_append s1 s2 : lit (s1 +:+ s2) = lit s1 ++ lit s2.
Proof.
  induction s1 as [|c s1 IH]; [done|].
  change (lit (String c s1 +:+ s2)) with (N_of_ascii c :: lit (s1 +:+ s2)).
  by rewrite IH.
Qed.

Lemma N_of_ascii_pretty_N_char d :
  d < 10 → N_of_ascii (pretty_N_char d) = 48 + d.
Proof.
  intros Hd.
  assert (d = 0 ∨ d = 1 ∨ d = 2 ∨ d = 3 ∨ d = 4 ∨ d = 5 ∨ d = 6 ∨ d = 7
          ∨ d = 8 ∨ d = 9) as Hcases by lia.
  repeat destruct Hcases as [->|Hcases]; try reflexivity.
  by subst d.
Qed.

(** The digits [str] prints for a natural number are those of its plain
    decimal form. *)
Lemma pretty_N_go_digits fuel : ∀ n s,
  n < 2 ^ N.of_nat fuel →
  lit (pretty_N_go n s) = ObjectDetector.decimal_digits fuel n (lit s).
Proof.
  induction fuel as [|fuel IH]; intros n s Hn.
  - change (2 ^ N.of_nat 0) with 1 in Hn.
    assert (n = 0) as -> by lia. by rewrite pretty_N_go_0.
  - cbn [ObjectDetector.decimal_digits].
    destruct (N.eqb_spec n 0) as [->|Hne]; [by rewrite pretty_N_go_0|].
    rewrite pretty_N_go_step by lia.
    rewrite IH.
    + change (lit (String (pretty_N_char (n `mod` 10)) s))
        with (N_of_ascii (pretty_N_char (n `mod` 10)) :: lit s).
      rewrite N_of_ascii_pretty_N_char; [done|].
      by apply N.mod_lt.
    + rewrite Nat2N.inj_succ, N.pow_succ_r' in Hn.
      apply N.Div0.div_lt_upper_bound. lia.
Qed.

Lemma pretty_N_plain_decimal (n : N) :
  lit (pretty n) = ObjectDetector.plain_decimal_N n.
Proof.
  unfold pretty, pretty_N, ObjectDetector.plain_decimal_N.
  destruct (decide (n = 0)) as [->|Hne]; [reflexivity|].
  rewrite (proj2 (N.eqb_neq n 0) Hne).
  apply (pretty_N_go_digits _ n ""%string).
  rewrite N2Nat.id. apply N.size_gt.
Qed.

(** [str] of an integer, as the code formats a vertex component, is its
    plain decimal form. *)
Lemma Z_str_plain_decimal (z : Z) : str z = ObjectDetector.plain_decimal z.
Proof.
  unfold str, Z_str. destruct z as [|q|q].
  - reflexivity.
  - apply (pretty_N_plain_decimal (Npos q)).
  - change (pretty (Zneg q)) with ("-" +:+ pretty (Npos q))%string.
    rewrite lit_append. simpl. f_equal.
    apply (pretty_N_plain_decimal (Npos q)).
Qed.

#[global] Instance Z_str_inj : Inj (=) (=) (str : Z → pystr).
Proof.
  intros x y Heq. apply lit_inj in Heq. by apply (inj pretty) in Heq.
Qed.

Lemma scalar_value_ascii (c : N) : c < 256 → scalar_value c.
Proof.
  intros Hc. split; [lia|].
  unfold is_surrogate.
  destruct (N.leb_spec 0xD800 c); [lia|done].
Qed.

Lemma lit_encodable s : encodable (lit s).
Proof.
  unfold encodable, lit. apply Forall_forall. intros c Hc.
  apply list_elem_of_fmap in Hc as (a & -> & _).
  apply scalar_value_ascii, N_ascii_bounded.
Qed.

#[global] Instance Z_str_encodable : EncodableStr Z.
Proof. intros z. apply lit_encodable. Qed.

Lemma utf8_encode_char_scalar c :
  scalar_value c → is_Some (utf8_encode_char c).
Proof.
  intros [Hlt Hs]. unfold utf8_encode_char. rewrite Hs.
  repeat case_match; try done.
  destruct (N.ltb_spec c 0x110000); [done|lia].
Qed.

Lemma utf8_encode_char_Some c bs :
  utf8_encode_char c = Some bs → scalar_value c.
Proof.
  unfold utf8_encode_char, scalar_value, is_surrogate.
  repeat case_match; try done; intros _;
    repeat match goal with
    | H : (_ <? _) = _ |- _ => apply N.ltb_lt in H || apply N.ltb_ge in H
    | H : (_ <=? _) = _ |- _ => apply N.leb_le in H || apply N.leb_gt in H
    | H : _ && _ = false |- _ => apply andb_false_iff in H as [H|H]
    end; split; try lia; try done;
    apply andb_false_iff;
    rewrite N.leb_gt, N.leb_gt; lia.
Qed.

(** [bytes(s, "utf8")] raises exactly on strings with a surrogate. *)
Lemma utf8_encode_Ok s : is_Ok (utf8_encode s) ↔ encodable s.
Proof.
  unfold encodable. induction s as [|c s IH]; simpl.
  - split; [constructor | by eexists].
  - split.
    + intros [bs Hbs]. destruct (utf8_encode_char c) as [b|] eqn:Hc; [|done].
      constructor; [by eapply utf8_encode_char_Some|].
      apply IH. destruct (utf8_encode s); [by eexists | done].
    + intros Hall. apply Forall_cons in Hall as [Hc Hs].
      destruct (utf8_encode_char_scalar c Hc) as [b ->].
      apply IH in Hs as [bs ->]. by eexists.
Qed.

Lemma encodable_app s1 s2 :
  encodable (s1 ++ s2) ↔ encodable s1 ∧ encodable s2.
Proof. apply Forall_app. Qed.

Lemma encodable_join xs : Forall encodable xs → encodable (join xs).
Proof.
  unfold join. induction 1 as [|x xs Hx _ IH]; simpl; [constructor|].
  by apply encodable_app.
Qed.

End strings.

Section format.
Context {A : Type} `{!PyStr A}.

Lemma format4_Ok (args : list A) a0 a1 a2 a3 rest :
  args = a0 :: a1 :: a2 :: a3 :: rest →
  format4 args = Ok (str a0 ++ str a1 ++ str a2 ++ str a3).
Proof. intros ->. unfold format4. simpl. by rewrite app_nil_r. Qed.

(** Four fields need four arguments; further arguments are ignored. *)
Lemma format4_long (args : list A) :
  (4 ≤ length args)%nat →
  format4 args = Ok (join (map str (take 4 args))).
Proof.
  intros Hlen.
  destruct args as [|a0 [|a1 [|a2 [|a3 rest]]]]; simpl in Hlen; try lia.
  unfold format4, join. simpl. by rewrite !app_nil_r.
Qed.

Lemma format4_short (args : list A) :
  (length args < 4)%nat → format4 args = Raise IndexError.
Proof.
  intros Hlen.
  destruct args as [|a0 [|a1 [|a2 [|a3 rest]]]]; simpl in Hlen; try lia;
    done.
Qed.

End format.

(* ================================================================== *)
(** * The detection identifier *)
(* ================================================================== *)

Section uuid_properties.
Import ObjectDetector.
Context {C L : Type} `{!PyStr C, !PyStr L}.
Implicit Types (p : pystr) (bbox : AxisAlignedBoundingBox C)
  (labels : list L).

Lemma vertices_length d bbox :
  has_dimension d bbox →
  length (min_vertex bbox ++ max_vertex bbox) = (2 * d)%nat.
Proof. intros [Hmin Hmax]. rewrite length_app. lia. Qed.

(** On a box with at least four vertex components (two dimensions or
    more) the hashed string is the provenance, the first four components
    and the sorted labels. *)
Lemma hashable_long p bbox labels :
  (4 ≤ length (min_vertex bbox ++ max_vertex bbox))%nat →
  hashable p bbox labels
  = Ok (p ++ join (map str (take 4 (min_vertex bbox ++ max_vertex bbox)))
          ++ join (sorted (map str labels))).
Proof. intros Hlen. unfold hashable. by rewrite format4_long. Qed.

(** On a box with fewer, formatting fails. *)
Lemma hashable_short p bbox labels :
  (length (min_vertex bbox ++ max_vertex bbox) < 4)%nat →
  hashable p bbox labels = Raise IndexError.
Proof. intros Hlen. unfold hashable. by rewrite format4_short. Qed.

Lemma gen_detection_uuid_short p bbox labels :
  (length (min_vertex bbox ++ max_vertex bbox) < 4)%nat →
  _gen_detection_uuid p bbox labels = Raise IndexError.
Proof.
  intros Hlen. unfold _gen_detection_uuid. by rewrite hashable_short.
Qed.

Lemma hashable_perm p bbox labels labels' :
  labels ≡ₚ labels' → hashable p bbox labels = hashable p bbox labels'.
Proof.
  intros Hp. unfold hashable.
  by rewrite (sorted_perm (map str labels) (map str labels'))
    by (by apply fmap_Permutation).
Qed.

(** C3 (amended). [_gen_detection_uuid] returns an identifier, and does
    not raise, for every bounding box of two or more dimensions, every
    provenance string and every finite label collection whose text UTF-8
    can encode (no lone surrogate code points). *)
Theorem gen_detection_uuid_total `{!EncodableStr C} d p bbox labels :
  has_dimension d bbox →
  (2 ≤ d)%nat →
  encodable p →
  Forall (λ l, encodable (str l)) labels →
  is_Ok (_gen_detection_uuid p bbox labels).
Proof.
  intros Hd Hge Hp Hl. unfold _gen_detection_uuid.
  rewrite hashable_long by (rewrite (vertices_length d) by done; lia).
  simpl.
  assert (is_Ok (utf8_encode
    (p ++ join (map str (take 4 (min_vertex bbox ++ max_vertex bbox)))
       ++ join (sorted (map str labels))))) as [b ->]; [|by eexists].
  apply utf8_encode_Ok. apply encodable_app; split; [done|].
  apply encodable_app; split; apply encodable_join.
  - apply Forall_fmap, Forall_forall. intros c _. apply str_encodable.
  - rewrite sorted_Permutation. by apply Forall_fmap.
Qed.

(** C5. The identifier does not depend on the order of the labels: any
    permutation of the label collection (the collection itself included)
    gives the same result. *)
Theorem gen_detection_uuid_perm p bbox labels labels' :
  labels ≡ₚ labels' →
  _gen_detection_uuid p bbox labels = _gen_detection_uuid p bbox labels'.
Proof.
  intros Hp. unfold _gen_detection_uuid. by rewrite (hashable_perm _ _ _ _ Hp).
Qed.

End uuid_properties.

Section uuid_specification.
Import ObjectDetector.
Context {L : Type} `{!PyStr L}.
Implicit Types (p : pystr) (labels : list L).

(** On a two-dimensional box of integers the hashed string is the
    specification's concatenation: all four components are formatted,
    and [str] of an integer is its plain decimal form. *)
Lemma hashable_2d p (bbox : AxisAlignedBoundingBox Z) labels :
  has_dimension 2 bbox →
  hashable p bbox labels = Ok (spec_concatenation p bbox labels).
Proof.
  intros Hd. rewrite hashable_long
    by (rewrite (vertices_length 2) by done; lia).
  unfold spec_concatenation.
  rewrite firstn_all2 by (rewrite (vertices_length 2) by done; lia).
  by rewrite (map_ext str plain_decimal Z_str_plain_decimal).
Qed.


End uuid_specification.

Section sensitivity.
Import ObjectDetector.
Context {C L : Type} `{!PyStr C, !PyStr L}.
Implicit Types (p : pystr) (bbox : AxisAlignedBoundingBox C)
  (labels : list L).

(** Replacing one formatted component, the rest fixed, changes the
    joined text unless the component's text is the same. *)
Lemma join_insert_inv (xs : list C) i c c' :
  xs !! i = Some c →
  join (map str (<[i := c']> xs)) = join (map str xs) →
  str c' = str c.
Proof.
  unfold join. revert i. induction xs as [|x xs IH]; intros [|i]; simpl;
    try done.
  - intros [= ->] Heq. by apply app_inv_tail in Heq.
  - intros Hi Heq. apply app_inv_head in Heq. by eapply IH.
Qed.

(** C6 (amended). For a two-dimensional box: changing only the provenance
    string changes the string that is hashed; changing only one vertex
    component changes it (number formatting being injective); changing
    only the labels changes it exactly when the concatenation of the
    sorted string-coerced labels changes, which a change of membership
    need not do. *)
Theorem hashable_sensitivity `{!Inj (=) (=) (str : C → pystr)}
    p bbox labels :
  has_dimension 2 bbox →
  (∀ p', p' ≠ p → hashable p' bbox labels ≠ hashable p bbox labels)
  ∧ (∀ bbox' i c c',
       (min_vertex bbox ++ max_vertex bbox) !! i = Some c →
       c' ≠ c →
       min_vertex bbox' ++ max_vertex bbox'
         = <[i := c']> (min_vertex bbox ++ max_vertex bbox) →
       hashable p bbox' labels ≠ hashable p bbox labels)
  ∧ (∀ labels',
       hashable p bbox labels' = hashable p bbox labels
       ↔ join (sorted (map str labels')) = join (sorted (map str labels))).
Proof.
  intros Hd.
  pose proof (vertices_length 2 bbox Hd) as Hlen.
  split; [|split].
  - intros p' Hne. rewrite !hashable_long by lia. intros [= Heq].
    apply Hne. by apply app_inv_tail in Heq.
  - intros bbox' i c c' Hi Hne Hv.
    assert (length (min_vertex bbox' ++ max_vertex bbox') = 4%nat) as Hlen'
      by (rewrite Hv, length_insert; lia).
    rewrite !hashable_long by lia. intros [= Heq].
    apply app_inv_head, app_inv_tail in Heq.
    rewrite !firstn_all2 in Heq by lia. rewrite Hv in Heq.
    apply (join_insert_inv _ _ _ _ Hi) in Heq.
    by apply (inj str) in Heq.
  - intros labels'. rewrite !hashable_long by lia. split.
    + intros [= Heq]. by apply app_inv_head, app_inv_head in Heq.
    + by intros ->.
Qed.

End sensitivity.

(* ================================================================== *)
(** * The identifier at concrete inputs *)
(* ================================================================== *)

Section uuid_examples.
Import ObjectDetector.
Open Scope Z_scope.

(** The scenario of section 8: provenance ["abc123"], box (0,0)-(10,10),
    labels cat and dog. *)
Example hashable_scenario :
  hashable (lit "abc123") (AABB [0; 0] [10; 10]) [lit "dog"; lit "cat"]
  = Ok (lit "abc123001010catdog").
Proof. vm_compute. reflexivity. Qed.

Example gen_detection_uuid_scenario :
  _gen_detection_uuid (lit "abc123") (AABB [0; 0] [10; 10])
    [lit "dog"; lit "cat"]
  = Ok (lit "f0db4c48f4ce9852a2b96ebd991a704f4736b489").
Proof. vm_compute. reflexivity. Qed.

(** Labels outside ASCII are sorted by code point and hashed as UTF-8;
    a negative coordinate prints with its sign. *)
Example utf8_encode_multibyte :
  utf8_encode [0xE9; 0x20AC; 0x1F600]%N
  = Ok [0xC3; 0xA9; 0xE2; 0x82; 0xAC; 0xF0; 0x9F; 0x98; 0x80]%N.
Proof. vm_compute. reflexivity. Qed.

Example gen_detection_uuid_unicode :
  _gen_detection_uuid (lit "abc123") (AABB [0; 0] [10; 10])
    [[0x1F600%N]; [0x20AC%N]; lit "caf" ++ [0xE9%N]]
  = Ok (lit "67d6cc343e6fca511ede273e06c40a570ec9fe0d").
Proof. vm_compute. reflexivity. Qed.

Example gen_detection_uuid_negative :
  _gen_detection_uuid (lit "abc123") (AABB [-5; 0] [10; 10]) [lit "cat"]
  = Ok (lit "77eb1cb8ce2be0c43cddda01d9a9f2ea1aa3e53c").
Proof. vm_compute. reflexivity. Qed.

(** A one-dimensional box has two vertex components; the third field of
    the template has no argument. *)
Example gen_detection_uuid_1d :
  _gen_detection_uuid (lit "abc123") (AABB [0] [10]) [lit "cat"]
  = Raise IndexError.
Proof. reflexivity. Qed.

(** A surrogate in the provenance string cannot be encoded. *)
Example gen_detection_uuid_surrogate :
  _gen_detection_uuid [0xD800%N] (AABB [0; 0] [10; 10]) [lit "cat"]
  = Raise UnicodeEncodeError.
Proof. vm_compute. reflexivity. Qed.

(** Of a three-dimensional box only the first four components count. *)
Example hashable_3d :
  hashable (lit "abc123") (AABB [0; 0; 0] [10; 20; 30]) [lit "cat"]
  = Ok (lit "abc12300010cat").
Proof. vm_compute. reflexivity. Qed.

(** C3, counterexample: on a one-dimensional box the function raises. *)
Lemma gen_detection_uuid_not_total :
  ¬ (∀ (p : pystr) (d : nat) (bbox : AxisAlignedBoundingBox Z)
       (labels : list pystr),
       has_dimension d bbox → is_Ok (_gen_detection_uuid p bbox labels)).
Proof.
  intros Hall.
  destruct (Hall (lit "abc123") 1%nat (AABB [0] [10]) [lit "cat"])
    as [u Hu]; [done|].
  rewrite gen_detection_uuid_1d in Hu. discriminate Hu.
Qed.

Lemma gen_detection_uuid_total_witness :
  has_dimension 2 (AABB [0; 0] [10; 10])
  ∧ (2 ≤ 2)%nat
  ∧ encodable (lit "abc123")
  ∧ Forall (λ l : pystr, encodable (str l)) [lit "dog"; lit "cat"]
  ∧ is_Ok (_gen_detection_uuid (lit "abc123") (AABB [0; 0] [10; 10])
             [lit "dog"; lit "cat"]).
Proof.
  assert (Forall (λ l : pystr, encodable (str l)) [lit "dog"; lit "cat"])
    as Hl by (repeat constructor; apply lit_encodable).
  repeat split; try done; try apply lit_encodable.
  apply (gen_detection_uuid_total 2); try done; try lia.
  apply lit_encodable.
Defined.


(** The plain decimal form on zero, a negative number and a number with
    inner and trailing zeros. *)
Example plain_decimal_examples :
  plain_decimal 0 = lit "0"
  ∧ plain_decimal (-12) = lit "-12"
  ∧ plain_decimal 10200 = lit "10200".
Proof. vm_compute. done. Qed.

(** The specification's string for a two-dimensional box with a negative
    component. *)
Example spec_concatenation_2d :
  spec_concatenation (lit "abc123") (AABB [-5; 0] [10; 120])
    [lit "dog"; lit "cat"]
  = lit "abc123-5010120catdog".
Proof. vm_compute. reflexivity. Qed.


Lemma gen_detection_uuid_perm_witness :
  [lit "dog"; lit "cat"] ≡ₚ [lit "cat"; lit "dog"]
  ∧ _gen_detection_uuid (lit "abc123") (AABB [0; 0] [10; 10])
      [lit "dog"; lit "cat"]
    = _gen_detection_uuid (lit "abc123") (AABB [0; 0] [10; 10])
        [lit "cat"; lit "dog"].
Proof.
  split; [apply perm_swap|].
  apply gen_detection_uuid_perm, perm_swap.
Defined.

(** C6, counterexample: the label sets {a, bc} and {ab, c} differ in
    membership and give the same hashed string. *)
Lemma distinct_label_sets_collide :
  ¬ (∀ (p : pystr) (bbox : AxisAlignedBoundingBox Z)
       (labels labels' : list pystr),
       NoDup labels → NoDup labels' →
       (∃ l, l ∈ labels ∧ l ∉ labels') →
       hashable p bbox labels ≠ hashable p bbox labels').
Proof.
  intros Hall.
  apply (Hall (lit "abc123") (AABB [0; 0] [10; 10])
           [lit "a"; lit "bc"] [lit "ab"; lit "c"]).
  - apply (bool_decide_unpack _). by vm_compute.
  - apply (bool_decide_unpack _). by vm_compute.
  - exists (lit "a"). split; apply (bool_decide_unpack _); by vm_compute.
  - vm_compute. reflexivity.
Qed.

Lemma hashable_sensitivity_witness :
  has_dimension 2 (AABB [0; 0] [10; 10])
  ∧ hashable (lit "abc124") (AABB [0; 0] [10; 10]) [lit "cat"]
    ≠ hashable (lit "abc123") (AABB [0; 0] [10; 10]) [lit "cat"]
  ∧ hashable (lit "abc123") (AABB [0; 5] [10; 10]) [lit "cat"]
    ≠ hashable (lit "abc123") (AABB [0; 0] [10; 10]) [lit "cat"].
Proof.
  split; [done|].
  destruct (hashable_sensitivity (lit "abc123") (AABB [0; 0] [10; 10])
              [lit "cat"]) as (Hp & Hv & _); [done|].
  split.
  - apply Hp. by intros [=].
  - apply (Hv (AABB [0; 5] [10; 10]) 1%nat 0 5); done.
Defined.

End uuid_examples.

(* ================================================================== *)
(** * The generator [detect_objects] *)
(* ================================================================== *)

Section detect_objects_properties.
Import ObjectDetector.
Context {C L P It : Type} `{!PyStr C, !PyStr L}.
Context `{!Iterator It (AxisAlignedBoundingBox C * list (L * P))}.

Abbreviation raw := (AxisAlignedBoundingBox C * list (L * P))%type.
Abbreviation frame := (ObjectDetector.frame C L P It).
Abbreviation generator := (ObjectDetector.generator C L P It).

Implicit Types (self : ObjectDetector.t It) (data : DataElement)
  (de_f : DetectionElementFactory C L P)
  (ce_f : ClassificationElementFactory L P)
  (args : frame) (dets : It) (raws : list raw) (tr : trace).

(** For a class that keeps the inherited [is_valid_element], an element is
    rejected exactly when its content type is not among the valid ones. *)
Lemma default_is_valid_element_false types data :
  default_is_valid_element types data = false
  ↔ content_type data ∉ types.
Proof.
  unfold default_is_valid_element. by rewrite bool_decide_eq_false.
Qed.

(** The call never runs the body. *)
Lemma detect_objects_call self data de_f ce_f tr :
  detect_objects self data de_f ce_f tr
  = (Ok (Some (Created (Frame self data de_f ce_f))), tr).
Proof. reflexivity. Qed.

(** A finished generator stays finished. *)
Lemma gen_next_Finished tr :
  gen_next (Finished : generator) tr = (Raise StopIteration, Finished, tr).
Proof. reflexivity. Qed.

(** The first [next] on an accepted element whose raw detection step
    gives an iterator enters the loop. *)
Lemma start_accepted args dets tr :
  is_valid_element (self args) (data_element args) = true →
  _detect_objects (self args) (data_element args) = Some dets →
  start args tr
  = loop args (str (uuid (data_element args))) dets
      (tr ++ [E_raise_valid_element (data_element args);
              E_detect_objects (data_element args)]).
Proof.
  intros Hv Hd. unfold start, raise_valid_element. rewrite Hv, Hd.
  by rewrite <- app_assoc.
Qed.

(** One turn of the loop on a raw detection with an identifier. *)
Lemma loop_yield args data_uuid dets bbox c_map dets' det_uuid tr :
  iter_next dets = Some ((bbox, c_map), dets') →
  _gen_detection_uuid data_uuid bbox (keys c_map) = Ok det_uuid →
  ∃ de tr',
    loop args data_uuid dets tr = (Ok de, Suspended args data_uuid dets', tr')
    ∧ de = set_detection (new_detection (de_factory args) det_uuid) bbox
             (set_classification
                (new_classification (ce_factory args) type_str det_uuid)
                c_map).
Proof.
  intros Hn Hu. unfold loop. rewrite Hn, Hu. by eexists _, _.
Qed.

Lemma loop_yield_assembled args data_uuid bbox c_map det_uuid :
  classification_factory_ok (ce_factory args) →
  detection_factory_ok (de_factory args) →
  _gen_detection_uuid data_uuid bbox (keys c_map) = Ok det_uuid →
  assembled data_uuid (bbox, c_map)
    (set_detection (new_detection (de_factory args) det_uuid) bbox
       (set_classification
          (new_classification (ce_factory args) type_str det_uuid) c_map)).
Proof.
  intros Hce Hde Hu. eexists det_uuid, _. simpl.
  destruct (Hce type_str det_uuid) as [Ht Hi].
  split_and!; first [done | apply Hde].
Qed.

(** Draining the loop: one assembled element per raw detection, in
    order, then [StopIteration]. *)
Lemma consume_loop args data_uuid dets raws tr fuel :
  classification_factory_ok (ce_factory args) →
  detection_factory_ok (de_factory args) →
  yields dets raws →
  Forall (λ r : raw, is_Ok (_gen_detection_uuid data_uuid r.1 (keys r.2)))
    raws →
  (length raws < fuel)%nat →
  ∃ des tr',
    consume fuel (Suspended args data_uuid dets) tr
    = (des, Some StopIteration, tr')
    ∧ Forall2 (assembled data_uuid) raws des.
Proof.
  intros Hce Hde Hy. revert tr fuel.
  induction Hy as [dets Hstop | dets [bbox c_map] dets' raws Hn Hy IH];
    intros tr fuel Hok Hfuel.
  - destruct fuel as [|fuel]; [simpl in Hfuel; lia|].
    exists [], (tr ++ [E_iter_next]). simpl. unfold loop. rewrite Hstop.
    split; [done | constructor].
  - destruct fuel as [|fuel]; [simpl in Hfuel; lia|].
    apply Forall_cons in Hok as [[det_uuid Hu] Hok]. simpl in Hu.
    destruct (loop_yield args data_uuid dets bbox c_map dets' det_uuid tr
                Hn Hu) as (de & tr1 & Hloop & Hde_eq).
    destruct (IH tr1 fuel Hok) as (des & tr' & Hc & Hall);
      [simpl in Hfuel; lia|].
    exists (de :: des), tr'. split.
    + change (consume (S fuel) (Suspended args data_uuid dets) tr)
        with (match loop args data_uuid dets tr with
              | (Ok de, g', tr') =>
                  let '(des, e, tr'') := consume fuel g' tr' in
                  (de :: des, e, tr'')
              | (Raise e, _, tr') => ([], Some e, tr')
              end).
      rewrite Hloop, Hc. done.
    + constructor; [|done]. subst de. by apply loop_yield_assembled.
Qed.

(** C7 (amended). When the element is accepted and the raw detection
    step yields a sequence of pairs for each of which the identity
    function returns an identifier, the generator yields exactly one
    detection element per pair, in the same order, and then stops. Each
    element is populated with the pair's box and a classification element
    that holds the pair's map, carries the element's own identifier (the
    one the identity function derives) and the type tag
    ['object detection classification']. *)
Theorem detect_objects_assembles self data de_f ce_f dets raws tr fuel :
  classification_factory_ok ce_f →
  detection_factory_ok de_f →
  is_valid_element self data = true →
  _detect_objects self data = Some dets →
  yields dets raws →
  Forall (λ r : raw,
            is_Ok (_gen_detection_uuid (str (uuid data)) r.1 (keys r.2)))
    raws →
  (length raws < fuel)%nat →
  ∃ g des tr',
    detect_objects self data de_f ce_f tr = (Ok (Some g), tr)
    ∧ consume fuel g tr = (des, Some StopIteration, tr')
    ∧ Forall2 (assembled (str (uuid data))) raws des.
Proof.
  intros Hce Hde Hv Hd Hy Hok Hfuel.
  set (args := Frame self data de_f ce_f).
  destruct (consume_loop args (str (uuid data)) dets raws
              (tr ++ [E_raise_valid_element data; E_detect_objects data])
              fuel Hce Hde Hy Hok Hfuel) as (des & tr' & Hc & Hall).
  exists (Created args), des, tr'. split_and!; [done | | done].
  destruct fuel as [|fuel]; [lia|].
  simpl in Hc |- *. by rewrite (start_accepted args dets tr Hv Hd).
Qed.

(** C1. When the element is accepted and the raw detection step returns
    [None], the call still returns a generator object, not [None]; the
    generator is empty: its first [next] raises [StopIteration] after the
    validation and the raw detection step, with no call on a factory. *)
Theorem detect_objects_null_raw_step self data de_f ce_f tr :
  is_valid_element self data = true →
  _detect_objects self data = None →
  ∃ g,
    detect_objects self data de_f ce_f tr = (Ok (Some g), tr)
    ∧ gen_next g tr
      = (Raise StopIteration, Finished,
         tr ++ [E_raise_valid_element data; E_detect_objects data])
    ∧ ∀ fuel,
        consume (S fuel) g tr
        = ([], Some StopIteration,
           tr ++ [E_raise_valid_element data; E_detect_objects data]).
Proof.
  intros Hv Hd. eexists. split; [reflexivity|].
  assert (start (Frame self data de_f ce_f) tr
          = (Raise StopIteration, Finished,
             tr ++ [E_raise_valid_element data; E_detect_objects data]))
    as Hs.
  { unfold start, raise_valid_element. simpl. rewrite Hv, Hd.
    by rewrite <- app_assoc. }
  split; [exact Hs|]. intros fuel. simpl. by rewrite Hs.
Qed.

(** C2 (amended). For an element that is not accepted, the call returns
    a generator object without raising; the first [next] on it raises
    [ValueError] and finishes the generator, having called neither the
    raw detection step nor a factory. *)
Theorem detect_objects_invalid_element self data de_f ce_f tr :
  is_valid_element self data = false →
  ∃ g calls,
    detect_objects self data de_f ce_f tr = (Ok (Some g), tr)
    ∧ gen_next g tr = (Raise ValueError, Finished, tr ++ calls)
    ∧ Forall (λ e, is_raw_detection_call e = false
                   ∧ is_factory_call e = false) calls.
Proof.
  intros Hv. exists (Created (Frame self data de_f ce_f)),
    [E_raise_valid_element data].
  split_and!; [done | | by repeat constructor].
  simpl. unfold start, raise_valid_element. simpl. by rewrite Hv.
Qed.

End detect_objects_properties.

Section identifier_of_yielded_elements.
Import ObjectDetector.
Context {C L P It : Type} `{!PyStr C, !PyStr L}.
Context `{!Iterator It (AxisAlignedBoundingBox C * list (L * P))}.

Implicit Types (args : ObjectDetector.frame C L P It) (dets : It)
  (raws : list (AxisAlignedBoundingBox C * list (L * P))) (tr : trace).

(** The probabilities of a classification map do not enter the
    identifier, nor does the order of its keys. *)
Lemma gen_detection_uuid_same_labels data_uuid
    (r1 r2 : AxisAlignedBoundingBox C * list (L * P)) :
  same_box_and_labels r1 r2 →
  _gen_detection_uuid data_uuid r1.1 (keys r1.2)
  = _gen_detection_uuid data_uuid r2.1 (keys r2.2).
Proof.
  intros (Hb & Hn1 & Hn2 & Hk). rewrite Hb.
  unfold _gen_detection_uuid.
  by rewrite (hashable_perm data_uuid r2.1 (keys r1.2) (keys r2.2))
    by (by apply NoDup_Permutation).
Qed.

Lemma consume_loop_uuids args1 args2 data_uuid fuel :
  detection_factory_ok (de_factory args1) →
  detection_factory_ok (de_factory args2) →
  ∀ dets1 dets2 raws1 raws2 tr1 tr2,
    yields dets1 raws1 → yields dets2 raws2 →
    Forall2 same_box_and_labels raws1 raws2 →
    de_uuid <$> (consume fuel (Suspended args1 data_uuid dets1) tr1).1.1
    = de_uuid <$> (consume fuel (Suspended args2 data_uuid dets2) tr2).1.1
    ∧ (consume fuel (Suspended args1 data_uuid dets1) tr1).1.2
      = (consume fuel (Suspended args2 data_uuid dets2) tr2).1.2.
Proof.
  intros Hde1 Hde2.
  induction fuel as [|fuel IH]; intros dets1 dets2 raws1 raws2 tr1 tr2
    Hy1 Hy2 Hsame; [done|].
  simpl. unfold loop.
  destruct Hsame as [|r1 r2 raws1 raws2 Hr Hsame].
  - inversion Hy1 as [? Hn1|]; inversion Hy2 as [? Hn2|]; subst.
    by rewrite Hn1, Hn2.
  - inversion Hy1 as [|? ? dets1' ? Hn1 Hy1']; subst.
    inversion Hy2 as [|? ? dets2' ? Hn2 Hy2']; subst.
    rewrite Hn1, Hn2. destruct r1 as [b1 m1], r2 as [b2 m2].
    pose proof (gen_detection_uuid_same_labels data_uuid _ _ Hr) as Hu.
    simpl in Hu. rewrite Hu.
    destruct (_gen_detection_uuid data_uuid b2 (keys m2)) as [det_uuid|e];
      [|done].
    match goal with
    | |- context [consume fuel (Suspended args1 data_uuid dets1') ?t] =>
        set (t1 := t)
    end.
    match goal with
    | |- context [consume fuel (Suspended args2 data_uuid dets2') ?t] =>
        set (t2 := t)
    end.
    specialize (IH dets1' dets2' raws1 raws2 t1 t2 Hy1' Hy2' Hsame).
    destruct (consume fuel (Suspended args1 data_uuid dets1') t1)
      as [[des1 e1] tr1'].
    destruct (consume fuel (Suspended args2 data_uuid dets2') t2)
      as [[des2 e2] tr2'].
    simpl in IH |- *. destruct IH as [IHu IHe].
    split; [|done]. rewrite Hde1, Hde2. by f_equal.
Qed.


End identifier_of_yielded_elements.

(* ================================================================== *)
(** * The generator at concrete inputs *)
(* ================================================================== *)

Section detect_objects_examples.
Import ObjectDetector Sample.

Lemma yields_list {A} (xs : list A) : yields xs xs.
Proof.
  induction xs as [|x xs IH]; [by constructor|].
  by apply (yields_item (x :: xs) x xs xs).
Qed.

Lemma png_accepted dets : is_valid_element (detector dets) png = true.
Proof. by vm_compute. Qed.

Lemma txt_rejected dets : is_valid_element (detector dets) txt = false.
Proof. by vm_compute. Qed.

Lemma call_gen dets data_element :
  call dets data_element = (Ok (Some (gen dets data_element)), []).
Proof. reflexivity. Qed.

(** The scenario of section 8, consumed to the end. *)
Example consume_scenario :
  (consume 2 (gen (Some [cat_dog]) png) []).1
  = ([ {| de_uuid := lit "f0db4c48f4ce9852a2b96ebd991a704f4736b489";
          de_detection :=
            Some (cat_dog.1,
                  {| ce_type_name := lit "object detection classification";
                     ce_uuid :=
                       lit "f0db4c48f4ce9852a2b96ebd991a704f4736b489";
                     ce_classification := Some cat_dog.2 |}) |} ],
      Some StopIteration).
Proof. vm_compute. reflexivity. Qed.

Lemma detect_objects_null_raw_step_witness :
  is_valid_element (detector None) png = true
  ∧ _detect_objects (detector None) png = None
  ∧ ∃ g,
      call None png = (Ok (Some g), [])
      ∧ gen_next g []
        = (Raise StopIteration, Finished,
           [E_raise_valid_element png; E_detect_objects png])
      ∧ ∀ fuel,
          consume (S fuel) g []
          = ([], Some StopIteration,
             [E_raise_valid_element png; E_detect_objects png]).
Proof.
  split; [by vm_compute|]. split; [done|].
  apply (detect_objects_null_raw_step (detector None) png
           DFLT_DETECTION_FACTORY DFLT_CLASSIFIER_FACTORY []);
    [by vm_compute | done].
Defined.

(** C2, counterexample: the call on a rejected element raises nothing;
    it returns a generator. *)
Lemma detect_objects_call_does_not_raise :
  ¬ (∀ (self : ObjectDetector.t (list raw)) (data_element : DataElement)
       (de_f : DetectionElementFactory Z pystr Q)
       (ce_f : ClassificationElementFactory pystr Q) (tr : trace),
       is_valid_element self data_element = false →
       (detect_objects self data_element de_f ce_f tr).1 = Raise ValueError).
Proof.
  intros Hall.
  specialize (Hall (detector (Some [cat_dog])) txt DFLT_DETECTION_FACTORY
                DFLT_CLASSIFIER_FACTORY [] (txt_rejected _)).
  discriminate Hall.
Qed.

Lemma detect_objects_invalid_element_witness :
  is_valid_element (detector (Some [cat_dog])) txt = false
  ∧ ∃ g calls,
      call (Some [cat_dog]) txt = (Ok (Some g), [])
      ∧ gen_next g [] = (Raise ValueError, Finished, [] ++ calls)
      ∧ Forall (λ e, is_raw_detection_call e = false
                     ∧ is_factory_call e = false) calls.
Proof.
  split; [by vm_compute|].
  apply (detect_objects_invalid_element (detector (Some [cat_dog])) txt
           DFLT_DETECTION_FACTORY DFLT_CLASSIFIER_FACTORY []).
  by vm_compute.
Defined.

(** A raw detection on a one-dimensional box ends the iteration with the
    identity function's [IndexError]. *)
Example consume_segment :
  (consume 2 (gen (Some [segment]) png) []).1 = ([], Some IndexError).
Proof. vm_compute. reflexivity. Qed.

(** C7, counterexample: for a raw detection on a one-dimensional box no
    detection element is yielded. *)
Lemma detect_objects_assembly_fails_1d :
  ¬ (∀ (self : ObjectDetector.t (list raw)) (data_element : DataElement)
       (de_f : DetectionElementFactory Z pystr Q)
       (ce_f : ClassificationElementFactory pystr Q)
       (dets raws : list raw) (tr : trace) (fuel : nat),
       classification_factory_ok ce_f →
       detection_factory_ok de_f →
       is_valid_element self data_element = true →
       _detect_objects self data_element = Some dets →
       yields dets raws →
       (length raws < fuel)%nat →
       ∃ g des tr',
         detect_objects self data_element de_f ce_f tr = (Ok (Some g), tr)
         ∧ consume fuel g tr = (des, Some StopIteration, tr')
         ∧ Forall2 (assembled (str (uuid data_element))) raws des).
Proof.
  intros Hall.
  destruct (Hall (detector (Some [segment])) png DFLT_DETECTION_FACTORY
              DFLT_CLASSIFIER_FACTORY [segment] [segment] [] 2%nat)
    as (g & des & tr' & Hcall & Hcons & _);
    try done; try (simpl; lia); try apply yields_list.
  injection Hcall as <-.
  pose proof consume_segment as Hseg. unfold gen in Hseg.
  rewrite Hcons in Hseg. discriminate Hseg.
Qed.

Lemma detect_objects_assembles_witness :
  classification_factory_ok (DFLT_CLASSIFIER_FACTORY (L := pystr) (P := Q))
  ∧ detection_factory_ok
      (DFLT_DETECTION_FACTORY (C := Z) (L := pystr) (P := Q))
  ∧ is_valid_element (detector (Some [cat_dog; dog_cat])) png = true
  ∧ _detect_objects (detector (Some [cat_dog; dog_cat])) png
    = Some [cat_dog; dog_cat]
  ∧ yields [cat_dog; dog_cat] [cat_dog; dog_cat]
  ∧ Forall (λ r : raw,
              is_Ok (_gen_detection_uuid (str (uuid png)) r.1 (keys r.2)))
      [cat_dog; dog_cat]
  ∧ (length [cat_dog; dog_cat] < 3)%nat
  ∧ ∃ g des tr',
      call (Some [cat_dog; dog_cat]) png = (Ok (Some g), [])
      ∧ consume 3 g [] = (des, Some StopIteration, tr')
      ∧ Forall2 (assembled (str (uuid png))) [cat_dog; dog_cat] des.
Proof.
  assert (Forall (λ r : raw,
              is_Ok (_gen_detection_uuid (str (uuid png)) r.1 (keys r.2)))
            [cat_dog; dog_cat]) as Hok.
  { repeat constructor; eexists; vm_compute; reflexivity. }
  split_and!; try done; try apply yields_list; try (simpl; lia).
  apply (detect_objects_assembles (detector (Some [cat_dog; dog_cat])) png
           DFLT_DETECTION_FACTORY DFLT_CLASSIFIER_FACTORY
           [cat_dog; dog_cat] [cat_dog; dog_cat] [] 3);
    try done; try apply yields_list; simpl; lia.
Defined.


End detect_objects_examples.

(* ================================================================== *)
(** * [ImageMatrixObjectDetector] *)
(* ================================================================== *)

Section image_matrix_properties.
Import ImageMatrixObjectDetector.
Context {Mat It : Type}.
Implicit Types (self : ImageMatrixObjectDetector.t Mat It)
  (data : DataElement).

(** C9. The raw detection step of the image-matrix detector returns
    [None] exactly when the reader's [load_as_matrix] does, and otherwise
    what [_detect_objects_matrix] returns for the matrix the reader
    loaded; [valid_content_types] and [is_valid_element] are the
    reader's. The base class sees these overrides. *)
Theorem image_matrix_detector_delegates self data :
  (_detect_objects self data = None
   ↔ ImageReader.load_as_matrix (_image_reader self) data = None)
  ∧ (∀ mat,
       ImageReader.load_as_matrix (_image_reader self) data = Some mat →
       _detect_objects self data = Some (_detect_objects_matrix self mat))
  ∧ valid_content_types self
    = ImageReader.valid_content_types (_image_reader self)
  ∧ is_valid_element self data
    = ImageReader.is_valid_element (_image_reader self) data
  ∧ ObjectDetector._detect_objects (as_ObjectDetector self) data
    = _detect_objects self data
  ∧ ObjectDetector.valid_content_types (as_ObjectDetector self)
    = ImageReader.valid_content_types (_image_reader self)
  ∧ ObjectDetector.is_valid_element (as_ObjectDetector self) data
    = ImageReader.is_valid_element (_image_reader self) data.
Proof.
  unfold _detect_objects. split_and!; try reflexivity.
  - destruct (ImageReader.load_as_matrix (_image_reader self) data);
      split; intros Heq; done.
  - by intros mat ->.
Qed.

End image_matrix_properties.

Section from_config_properties.
Import Heap ImageMatrixObjectDetector.
Context {Inst : Type}.
Variable from_config_dict : value Inst → M Inst Inst.
Variable super_from_config : loc → bool → M Inst Inst.

(** What is assumed of the two collaborators: resolving the nested
    configuration writes to no dict object that exists already, and the
    inherited constructor writes at most to the dict it is handed. *)
Hypothesis from_config_dict_frame : ∀ v (h : heap Inst) l,
  is_Some (h !! l) → (from_config_dict v h).2 !! l = h !! l.
Hypothesis super_from_config_frame : ∀ l' b (h : heap Inst) l,
  l ≠ l' → is_Some (h !! l) → (super_from_config l' b h).2 !! l = h !! l.

Lemma alloc_fresh (d : dict Inst) (h : heap Inst) l :
  is_Some (h !! l) →
  ∃ l', alloc d h = (Ok l', <[l' := d]> h) ∧ l' ≠ l ∧ h !! l' = None.
Proof.
  intros Hl. exists (fresh (dom h)). split; [done|].
  pose proof (is_fresh (dom h)) as Hfresh.
  split.
  - intros Heq. apply Hfresh. rewrite Heq. by apply elem_of_dom.
  - by apply not_elem_of_dom.
Qed.

Lemma dict_copy_Some (h : heap Inst) l d :
  h !! l = Some d → dict_copy l h = alloc d h.
Proof. intros Hl. unfold dict_copy. by rewrite Hl. Qed.

Lemma dict_get_Some (h : heap Inst) l d k dflt :
  h !! l = Some d → dict_get l k dflt h = (Ok (default dflt (d !! k)), h).
Proof. intros Hl. unfold dict_get. by rewrite Hl. Qed.

(** The run of [from_config], step by step: the copy [l1] and the default
    [{}] [l2] are new objects; if the reader is resolved, the inherited
    constructor is handed the copy with ['image_reader'] replaced. *)
Lemma from_config_run (config_dict : loc) (merge_default : bool)
    (h : heap Inst) (d : dict Inst) :
  h !! config_dict = Some d →
  ∃ l1 l2,
    l1 ≠ config_dict ∧ l2 ≠ config_dict ∧ l2 ≠ l1
    ∧ h !! l1 = None
    ∧ let h2 := <[l2 := ∅]> (<[l1 := d]> h) in
      match from_config_dict (default (VRef l2) (d !! image_reader_key)) h2
      with
      | (Raise e, h3) =>
          from_config from_config_dict super_from_config config_dict
            merge_default h = (Raise e, h3)
      | (Ok reader, h3) =>
          h3 !! config_dict = Some d
          ∧ from_config from_config_dict super_from_config config_dict
              merge_default h
            = super_from_config l1 merge_default
                (<[l1 := <[image_reader_key := VInst reader]> d]> h3)
      end.
Proof.
  intros Hl.
  destruct (alloc_fresh d h config_dict) as (l1 & Ha1 & Hne1 & Hnew1);
    [by eexists|].
  assert (<[l1 := d]> h !! config_dict = Some d) as Hl1
    by (by rewrite lookup_insert_ne).
  destruct (alloc_fresh ∅ (<[l1 := d]> h) config_dict)
    as (l2 & Ha2 & Hne2 & Hnew2); [by eexists|].
  assert (l2 ≠ l1) as Hne21.
  { intros ->. by rewrite lookup_insert_eq in Hnew2. }
  exists l1, l2. split_and!; try done.
  intros h2.
  assert (h2 !! config_dict = Some d) as Hl2
    by (unfold h2; by rewrite lookup_insert_ne).
  assert (h2 !! l1 = Some d) as Hcopy.
  { unfold h2. rewrite lookup_insert_ne by done.
    by rewrite lookup_insert_eq. }
  unfold from_config, Heap.bind.
  rewrite (dict_copy_Some h config_dict d Hl), Ha1, Ha2.
  fold h2. rewrite (dict_get_Some h2 l1 d _ _ Hcopy).
  pose proof (from_config_dict_frame
                (default (VRef l2) (d !! image_reader_key)) h2) as Hframe.
  destruct (from_config_dict _ h2) as [[reader|e] h3]; [|done].
  simpl in Hframe.
  split; [by rewrite Hframe|].
  unfold dict_setitem. by rewrite Hframe, Hcopy.
Qed.

(** C10. [from_config] leaves the caller's configuration dictionary as it
    found it, whether it returns or raises: the entry ['image_reader'] is
    replaced in a copy. *)
Theorem from_config_preserves_config_dict
    (config_dict : loc) (merge_default : bool) (h : heap Inst)
    (d : dict Inst) :
  h !! config_dict = Some d →
  (from_config from_config_dict super_from_config config_dict
     merge_default h).2 !! config_dict = Some d.
Proof.
  intros Hl.
  destruct (from_config_run config_dict merge_default h d Hl)
    as (l1 & l2 & Hne1 & Hne2 & Hne21 & Hnew1 & Hrun).
  simpl in Hrun.
  pose proof (from_config_dict_frame
                (default (VRef l2) (d !! image_reader_key))
                (<[l2 := ∅]> (<[l1 := d]> h)) config_dict) as Hframe.
  destruct (from_config_dict _ (<[l2 := ∅]> (<[l1 := d]> h)))
    as [[reader|e] h3].
  - destruct Hrun as [Hl3 ->].
    rewrite super_from_config_frame; [by rewrite lookup_insert_ne| done |].
    rewrite lookup_insert_ne by done. by eexists.
  - rewrite Hrun. simpl in Hframe |- *. rewrite Hframe.
    + rewrite lookup_insert_ne by done. by rewrite lookup_insert_ne.
    + rewrite lookup_insert_ne by done. rewrite lookup_insert_ne by done.
      by eexists.
Qed.

End from_config_properties.

Section from_config_examples.
Import Heap ImageMatrixObjectDetector.

(** Collaborators that construct named instances and write nothing. *)
Lemma from_config_preserves_config_dict_witness :
  let from_config_dict : value pystr → M pystr pystr :=
    λ _ h, (Ok (lit "reader"), h) in
  let super_from_config : loc → bool → M pystr pystr :=
    λ _ _ h, (Ok (lit "detector"), h) in
  let d : dict pystr := {[ image_reader_key := VNone ]} in
  let h : heap pystr := {[ 1%positive := d ]} in
  h !! 1%positive = Some d
  ∧ (from_config from_config_dict super_from_config 1%positive true h).2
      !! 1%positive = Some d.
Proof.
  intros from_config_dict super_from_config d h.
  assert (h !! 1%positive = Some d) as Hl by apply lookup_singleton_eq.
  split; [exact Hl|].
  apply (from_config_preserves_config_dict from_config_dict
           super_from_config); [done | done | exact Hl].
Defined.

End from_config_examples.

(* ================================================================== *)
(** * Further properties of the detection identifier *)
(* ================================================================== *)

Section digest_shape.

Lemma be_bytes_length n x : length (Sha1.be_bytes n x) = n.
Proof. induction n as [|n IH]; simpl; [done | by rewrite IH]. Qed.

Lemma be_bytes_bound n x : Forall (λ b, b < 256) (Sha1.be_bytes n x).
Proof.
  induction n as [|n IH]; simpl; constructor; [|done].
  by apply N.mod_lt.
Qed.

Lemma digest_length msg : length (Sha1.digest msg) = 20%nat.
Proof.
  unfold Sha1.digest. destruct (Sha1.digest_state msg).
  by rewrite !length_app, !be_bytes_length.
Qed.

Lemma digest_bound msg : Forall (λ b, b < 256) (Sha1.digest msg).
Proof.
  unfold Sha1.digest. destruct (Sha1.digest_state msg).
  rewrite !Forall_app. split_and!; apply be_bytes_bound.
Qed.

Lemma hex_digit_range x :
  x < 16 →
  48 ≤ Sha1.hex_digit x ≤ 57 ∨ 97 ≤ Sha1.hex_digit x ≤ 102.
Proof.
  intros Hx. unfold Sha1.hex_digit.
  destruct (N.ltb_spec x 10); lia.
Qed.

Lemma hexdigest_length msg : length (Sha1.hexdigest msg) = 40%nat.
Proof.
  unfold Sha1.hexdigest.
  assert (∀ bs : list N,
            length (flat_map (λ b, [Sha1.hex_digit (b / 16);
                                    Sha1.hex_digit (b mod 16)]) bs)
            = (2 * length bs)%nat) as Hflat.
  { induction bs as [|b bs IH]; simpl; [done|]. rewrite IH. lia. }
  by rewrite Hflat, digest_length.
Qed.

Lemma hexdigest_hex msg :
  Forall (λ c, 48 ≤ c ≤ 57 ∨ 97 ≤ c ≤ 102) (Sha1.hexdigest msg).
Proof.
  unfold Sha1.hexdigest.
  induction (digest_bound msg) as [|b bs Hb _ IH]; simpl; [constructor|].
  constructor; [|constructor; [|done]]; apply hex_digit_range.
  - apply N.Div0.div_lt_upper_bound. lia.
  - by apply N.mod_lt.
Qed.

Lemma utf8_encode_raises s e :
  utf8_encode s = Raise e → e = UnicodeEncodeError.
Proof.
  induction s as [|c s IH]; simpl; [done|].
  destruct (utf8_encode_char c); [|by intros [= <-]].
  destruct (utf8_encode s); simpl; [done|].
  intros [= <-]. by apply IH.
Qed.

End digest_shape.

Section uuid_outcomes.
Import ObjectDetector.
Context {C L : Type} `{!PyStr C, !PyStr L}.
Implicit Types (p : pystr) (bbox : AxisAlignedBoundingBox C)
  (labels : list L).

(** X1. [_gen_detection_uuid] has three outcomes. It raises [IndexError]
    exactly when the box has fewer than four vertex components, whatever
    the other arguments. It raises [UnicodeEncodeError] exactly when
    there are four or more and the text to hash (provenance, first four
    components, sorted labels) contains a code point UTF-8 cannot encode.
    Otherwise it returns the digest of that text. *)
Theorem gen_detection_uuid_outcomes p bbox labels :
  let vs := min_vertex bbox ++ max_vertex bbox in
  let text := p ++ join (map str (take 4 vs))
                ++ join (sorted (map str labels)) in
  (_gen_detection_uuid p bbox labels = Raise IndexError
   ↔ (length vs < 4)%nat)
  ∧ (_gen_detection_uuid p bbox labels = Raise UnicodeEncodeError
     ↔ (4 ≤ length vs)%nat ∧ ¬ encodable text)
  ∧ (∀ u, _gen_detection_uuid p bbox labels = Ok u
          ↔ (4 ≤ length vs)%nat
            ∧ ∃ b, utf8_encode text = Ok b ∧ u = Sha1.hexdigest b)
  ∧ (∀ e, _gen_detection_uuid p bbox labels = Raise e →
          e = IndexError ∨ e = UnicodeEncodeError).
Proof.
  intros vs text.
  destruct (decide (length vs < 4)%nat) as [Hshort|Hlong].
  - rewrite (gen_detection_uuid_short p bbox labels Hshort).
    split_and!.
    + done.
    + split; [done | intros [? _]; lia].
    + intros u. split; [done | intros [? _]; lia].
    + intros e [= <-]. by left.
  - assert (4 ≤ length vs)%nat as Hlen by lia.
    unfold _gen_detection_uuid.
    rewrite (hashable_long p bbox labels Hlen). simpl. fold vs. fold text.
    pose proof (utf8_encode_Ok text) as Henc.
    destruct (utf8_encode text) as [b|e] eqn:Hb; simpl.
    + assert (encodable text) as Hok by (apply Henc; by eexists).
      split_and!.
      * split; [done | lia].
      * split; [done | by intros [_ Hn]].
      * intros u. split.
        -- intros [= <-]. split; [done | by eexists].
        -- intros [_ (b' & [= <-] & ->)]. done.
      * done.
    + pose proof (utf8_encode_raises text e Hb) as ->.
      assert (¬ encodable text) as Hno.
      { intros Hok. apply Henc in Hok as [b' Hb']. discriminate Hb'. }
      split_and!.
      * split; [done | lia].
      * done.
      * intros u. split; [done | by intros [_ (b' & [=] & _)]].
      * intros e [= <-]. by right.
Qed.

(** X2. An identifier [_gen_detection_uuid] returns is forty characters
    long, each a digit or one of the lower-case letters a to f. *)
Theorem gen_detection_uuid_is_hex p bbox labels u :
  _gen_detection_uuid p bbox labels = Ok u →
  length u = 40%nat ∧ Forall (λ c, 48 ≤ c ≤ 57 ∨ 97 ≤ c ≤ 102) u.
Proof.
  unfold _gen_detection_uuid.
  destruct (hashable p bbox labels) as [h|]; simpl; [|done].
  destruct (utf8_encode h) as [b|]; simpl; [|done].
  intros [= <-]. split; [apply hexdigest_length | apply hexdigest_hex].
Qed.

Lemma format4_take (args : list C) : format4 args = format4 (take 4 args).
Proof. by destruct args as [|a0 [|a1 [|a2 [|a3 rest]]]]. Qed.

(** X3. Only the first four vertex components (minimum vertex first) enter
    the identifier: boxes that agree on them get the same identifier, so
    do three-dimensional boxes that differ in the last two components of
    the maximum vertex only. *)
Theorem gen_detection_uuid_first_four p bbox bbox' labels :
  take 4 (min_vertex bbox ++ max_vertex bbox)
  = take 4 (min_vertex bbox' ++ max_vertex bbox') →
  _gen_detection_uuid p bbox labels = _gen_detection_uuid p bbox' labels.
Proof.
  intros Heq. unfold _gen_detection_uuid, hashable.
  rewrite (format4_take (min_vertex bbox ++ max_vertex bbox)), Heq.
  by rewrite <- format4_take.
Qed.

Lemma sorted_empty_first (xs1 xs2 : list pystr) :
  sorted (xs1 ++ [] :: xs2) = [] :: sorted (xs1 ++ xs2).
Proof.
  apply (Sorted_unique pystr_le).
  - apply sorted_Sorted.
  - constructor; [apply sorted_Sorted|].
    destruct (sorted (xs1 ++ xs2)); by constructor.
  - rewrite !sorted_Permutation. by rewrite Permutation_middle.
Qed.

(** X4. A label whose string form is empty leaves the identifier as it is
    without that label, wherever it stands in the collection. *)
Theorem gen_detection_uuid_empty_label p bbox labels1 l labels2 :
  str l = [] →
  _gen_detection_uuid p bbox (labels1 ++ l :: labels2)
  = _gen_detection_uuid p bbox (labels1 ++ labels2).
Proof.
  intros Hl. unfold _gen_detection_uuid, hashable.
  rewrite !map_app. simpl. rewrite Hl, sorted_empty_first.
  done.
Qed.

End uuid_outcomes.

Section uuid_coercion.
Import ObjectDetector.
Context {C L1 L2 : Type} `{!PyStr C, !PyStr L1, !PyStr L2}.

(** X5. Labels enter the identifier through their string forms only:
    two label collections, of whatever types, whose string forms are the
    same up to order get the same identifier (the number 1 and the string
    "1" are the same label to it). *)
Theorem gen_detection_uuid_str_coercion (p : pystr)
    (bbox : AxisAlignedBoundingBox C) (labels1 : list L1)
    (labels2 : list L2) :
  map str labels1 ≡ₚ map str labels2 →
  _gen_detection_uuid p bbox labels1 = _gen_detection_uuid p bbox labels2.
Proof.
  intros Hp. unfold _gen_detection_uuid, hashable.
  by rewrite (sorted_perm _ _ Hp).
Qed.

End uuid_coercion.

(* ================================================================== *)
(** * Further properties of the generator *)
(* ================================================================== *)

Section generator_runs.
Import ObjectDetector.
Context {C L P It : Type} `{!PyStr C, !PyStr L}.
Context `{!Iterator It (AxisAlignedBoundingBox C * list (L * P))}.

Implicit Types (args : ObjectDetector.frame C L P It) (dets : It)
  (raws : list (AxisAlignedBoundingBox C * list (L * P)))
  (uuids : list pystr) (tr : trace)
  (g : ObjectDetector.generator C L P It).

Lemma gen_detection_uuid_exn (p : pystr) (bbox : AxisAlignedBoundingBox C)
    (labels : list L) e :
  _gen_detection_uuid p bbox labels = Raise e →
  e = IndexError ∨ e = UnicodeEncodeError.
Proof.
  unfold _gen_detection_uuid, hashable, format4.
  destruct (format_fields _ _) as [v|e'] eqn:Hf; simpl.
  - destruct (utf8_encode _) as [b|e'] eqn:Hb; simpl; [done|].
    intros [= <-]. right. by eapply utf8_encode_raises.
  - intros [= <-]. left.
    destruct (min_vertex bbox ++ max_vertex bbox)
      as [|a0 [|a1 [|a2 [|a3 rest]]]]; simpl in Hf; congruence.
Qed.

Lemma loop_stop args data_uuid dets tr :
  iter_next dets = None →
  loop args data_uuid dets tr
  = (Raise StopIteration, Finished, tr ++ [E_iter_next]).
Proof. intros Hn. unfold loop. by rewrite Hn. Qed.

Lemma loop_raise args data_uuid dets bbox c_map dets' e tr :
  iter_next dets = Some ((bbox, c_map), dets') →
  _gen_detection_uuid data_uuid bbox (keys c_map) = Raise e →
  loop args data_uuid dets tr = (Raise e, Finished, tr ++ [E_iter_next]).
Proof. intros Hn Hu. unfold loop. by rewrite Hn, Hu. Qed.

Lemma loop_yield_calls args data_uuid dets bbox c_map dets' det_uuid tr :
  iter_next dets = Some ((bbox, c_map), dets') →
  _gen_detection_uuid data_uuid bbox (keys c_map) = Ok det_uuid →
  loop args data_uuid dets tr
  = (Ok (set_detection (new_detection (de_factory args) det_uuid) bbox
           (set_classification
              (new_classification (ce_factory args) type_str det_uuid)
              c_map)),
     Suspended args data_uuid dets', tr ++ yield_calls det_uuid).
Proof. intros Hn Hu. unfold loop. by rewrite Hn, Hu. Qed.

Lemma nexts_S n g tr :
  nexts (S n) g tr
  = (let '(r, g', tr') := gen_next g tr in
     let '(rs, g'', tr'') := nexts n g' tr' in
     (r :: rs, g'', tr'')).
Proof. reflexivity. Qed.

Lemma nexts_app n m g tr :
  nexts (n + m) g tr
  = (let '(rs, g', tr') := nexts n g tr in
     let '(rs', g'', tr'') := nexts m g' tr' in
     (rs ++ rs', g'', tr'')).
Proof.
  revert g tr. induction n as [|n IH]; intros g tr.
  - simpl. by destruct (nexts m g tr) as [[rs' g''] tr''].
  - change (S n + m)%nat with (S (n + m)). rewrite !nexts_S.
    destruct (gen_next g tr) as [[r g1] tr1]. rewrite IH.
    destruct (nexts n g1 tr1) as [[rs g2] tr2].
    by destruct (nexts m g2 tr2) as [[rs' g3] tr3].
Qed.

Lemma nexts_Finished n tr :
  nexts n (Finished : ObjectDetector.generator C L P It) tr
  = (replicate n (Raise StopIteration), Finished, tr).
Proof.
  induction n as [|n IH]; [done|].
  rewrite nexts_S. simpl gen_next. cbv beta iota. by rewrite IH.
Qed.

(** [n] calls of [next] on a generator suspended in the loop, while the
    raw detections have identifiers: the elements built, the generator
    suspended at the iterator [n] items on, the calls. *)
Lemma nexts_suspended args data_uuid raws : ∀ dets dets' uuids tr,
  pulls dets raws dets' →
  Forall2 (λ raw u, _gen_detection_uuid data_uuid raw.1 (keys raw.2) = Ok u)
    raws uuids →
  nexts (length raws) (Suspended args data_uuid dets) tr
  = (Ok <$> zip_with
       (λ raw u,
          set_detection (new_detection (de_factory args) u) raw.1
            (set_classification
               (new_classification (ce_factory args) type_str u) raw.2))
       raws uuids,
     Suspended args data_uuid dets',
     tr ++ flat_map yield_calls uuids).
Proof.
  induction raws as [|[bbox c_map] raws IH]; intros dets dets' uuids tr Hp Hu.
  - inversion Hp; subst. inversion Hu; subst. simpl. by rewrite app_nil_r.
  - inversion Hp as [|? ? dets1 ? ? Hn Hp']; subst.
    inversion Hu as [|? u ? uuids' Hu1 Hu']; subst. simpl in Hu1.
    change (length ((bbox, c_map) :: raws)) with (S (length raws)).
    rewrite nexts_S.
    change (gen_next (Suspended args data_uuid dets) tr)
      with (loop args data_uuid dets tr).
    rewrite (loop_yield_calls args data_uuid dets bbox c_map dets1 u tr Hn Hu1).
    rewrite (IH dets1 dets' uuids' _ Hp' Hu'). simpl.
    by rewrite <- app_assoc.
Qed.

Lemma nexts_created_accepted n args dets tr :
  is_valid_element (self args) (data_element args) = true →
  _detect_objects (self args) (data_element args) = Some dets →
  nexts (S n) (Created args) tr
  = nexts (S n) (Suspended args (str (uuid (data_element args))) dets)
      (tr ++ [E_raise_valid_element (data_element args);
              E_detect_objects (data_element args)]).
Proof.
  intros Hv Hd. rewrite !nexts_S.
  change (gen_next (Created args) tr) with (start args tr).
  by rewrite (start_accepted args dets tr Hv Hd).
Qed.

Lemma pulls_app dets raws1 dets1 raws2 dets2 :
  pulls dets raws1 dets1 → pulls dets1 raws2 dets2 →
  pulls dets (raws1 ++ raws2) dets2.
Proof.
  induction 1 as [|? ? ? ? ? Hn _ IH]; intros Hp2; [done|].
  simpl. eapply pulls_cons; [done | by apply IH].
Qed.

Lemma pulls_app_inv dets raws1 raws2 dets2 :
  pulls dets (raws1 ++ raws2) dets2 →
  ∃ dets1, pulls dets raws1 dets1 ∧ pulls dets1 raws2 dets2.
Proof.
  revert dets. induction raws1 as [|r raws1 IH]; intros dets Hp; simpl in Hp.
  - exists dets. split; [constructor | done].
  - inversion Hp as [|? ? dets' ? ? Hn Hp']; subst.
    destruct (IH dets' Hp') as (dets1 & H1 & H2).
    exists dets1. split; [by eapply pulls_cons | done].
Qed.

Lemma yields_pulls dets raws :
  yields dets raws → ∃ dets', pulls dets raws dets' ∧ iter_next dets' = None.
Proof.
  induction 1 as [dets Hn | dets r dets1 raws Hn _ (dets' & Hp & Hstop)].
  - exists dets. split; [constructor | done].
  - exists dets'. split; [by eapply pulls_cons | done].
Qed.

End generator_runs.

Section generator_properties.
Import ObjectDetector.
Context {C L P It : Type} `{!PyStr C, !PyStr L}.
Context `{!Iterator It (AxisAlignedBoundingBox C * list (L * P))}.

Implicit Types (args : ObjectDetector.frame C L P It) (dets : It)
  (raws : list (AxisAlignedBoundingBox C * list (L * P)))
  (uuids : list pystr) (tr : trace)
  (g : ObjectDetector.generator C L P It).

(** X6. The calls of a complete run on an accepted element, in order: the
    validation, the raw detection step, then for each raw detection a
    pull from the raw iterator, [new_classification] with the type tag
    and the detection's identifier, [set_classification],
    [new_detection] with the same identifier and [set_detection]; last
    the pull that finds the raw iterator exhausted. *)
Theorem detect_objects_call_order args dets raws uuids tr :
  is_valid_element (self args) (data_element args) = true →
  _detect_objects (self args) (data_element args) = Some dets →
  yields dets raws →
  Forall2 (λ raw u,
             _gen_detection_uuid (str (uuid (data_element args))) raw.1
               (keys raw.2) = Ok u) raws uuids →
  (nexts (S (length raws)) (Created args) tr).2
  = tr ++ [E_raise_valid_element (data_element args);
           E_detect_objects (data_element args)]
       ++ flat_map yield_calls uuids ++ [E_iter_next].
Proof.
  intros Hv Hd Hy Hu.
  destruct (yields_pulls dets raws Hy) as (dets' & Hp & Hstop).
  rewrite (nexts_created_accepted _ args dets tr Hv Hd).
  replace (S (length raws)) with (length raws + 1)%nat by lia.
  rewrite nexts_app, (nexts_suspended args _ raws dets dets' uuids _ Hp Hu).
  rewrite nexts_S.
  change (gen_next (Suspended args (str (uuid (data_element args))) dets') ?t)
    with (loop args (str (uuid (data_element args))) dets' t).
  rewrite loop_stop by done. simpl. by rewrite <- !app_assoc.
Qed.

(** X7. When the identity function raises for a raw detection, the
    elements of the raw detections before it have been yielded, the
    [next] that reaches it raises that exception and finishes the
    generator; the failing detection costs one pull and no factory call,
    and nothing after it is pulled. *)
Theorem detect_objects_fails_midway args dets good bad dets' uuids e tr :
  is_valid_element (self args) (data_element args) = true →
  _detect_objects (self args) (data_element args) = Some dets →
  pulls dets (good ++ [bad]) dets' →
  Forall2 (λ raw u,
             _gen_detection_uuid (str (uuid (data_element args))) raw.1
               (keys raw.2) = Ok u) good uuids →
  _gen_detection_uuid (str (uuid (data_element args))) bad.1 (keys bad.2)
  = Raise e →
  ∃ des,
    length des = length good
    ∧ nexts (S (length good)) (Created args) tr
      = ((Ok <$> des) ++ [Raise e], Finished,
         tr ++ [E_raise_valid_element (data_element args);
                E_detect_objects (data_element args)]
            ++ flat_map yield_calls uuids ++ [E_iter_next]).
Proof.
  intros Hv Hd Hp Hu He.
  apply pulls_app_inv in Hp as (dets1 & Hp1 & Hp2).
  inversion Hp2 as [|? ? dets2 ? ? Hn Hp3]; subst.
  eexists. split; [|].
  2: {
    rewrite (nexts_created_accepted _ args dets tr Hv Hd).
    replace (S (length good)) with (length good + 1)%nat by lia.
    rewrite nexts_app,
      (nexts_suspended args _ good dets dets1 uuids _ Hp1 Hu).
    rewrite nexts_S.
    change (gen_next (Suspended args (str (uuid (data_element args))) dets1)
              ?t)
      with (loop args (str (uuid (data_element args))) dets1 t).
    destruct bad as [bbox c_map].
    rewrite (loop_raise args _ dets1 bbox c_map dets2 e _ Hn He).
    simpl. by rewrite <- !app_assoc. }
  rewrite length_zip_with.
  apply Forall2_length in Hu. lia.
Qed.

(** X8. The generator takes from the raw iterator one item per element it
    yields and none ahead: after as many [next]s as the raw iterator has
    given items so far (it may have more to give, or never stop), the
    generator is suspended holding the raw iterator exactly where those
    items left it, and the calls made are those of the items. *)
Theorem detect_objects_lazy args dets raws dets' uuids tr :
  is_valid_element (self args) (data_element args) = true →
  _detect_objects (self args) (data_element args) = Some dets →
  pulls dets raws dets' →
  raws ≠ [] →
  Forall2 (λ raw u,
             _gen_detection_uuid (str (uuid (data_element args))) raw.1
               (keys raw.2) = Ok u) raws uuids →
  ∃ des,
    length des = length raws
    ∧ nexts (length raws) (Created args) tr
      = (Ok <$> des,
         Suspended args (str (uuid (data_element args))) dets',
         tr ++ [E_raise_valid_element (data_element args);
                E_detect_objects (data_element args)]
            ++ flat_map yield_calls uuids).
Proof.
  intros Hv Hd Hp Hne Hu.
  eexists. split; [|].
  2: {
    destruct raws as [|r raws]; [done|].
    change (length (r :: raws)) with (S (length raws)).
    rewrite (nexts_created_accepted _ args dets tr Hv Hd).
    change (S (length raws)) with (length (r :: raws)).
    rewrite (nexts_suspended args _ (r :: raws) dets dets' uuids _ Hp Hu).
    by rewrite <- !app_assoc. }
  rewrite length_zip_with.
  apply Forall2_length in Hu. lia.
Qed.

Lemma loop_raise_Finished args data_uuid dets tr e g' tr' :
  loop args data_uuid dets tr = (Raise e, g', tr') → g' = Finished.
Proof.
  unfold loop. destruct (iter_next dets) as [[[bbox c_map] dets1]|];
    [|by intros [= _ <- _]].
  destruct (_gen_detection_uuid _ _ _); [done | by intros [= _ <- _]].
Qed.

Lemma start_raise_Finished args tr e g' tr' :
  start args tr = (Raise e, g', tr') → g' = Finished.
Proof.
  unfold start. destruct (raise_valid_element _ _); [|by intros [= _ <- _]].
  destruct (_detect_objects _ _); [|by intros [= _ <- _]].
  apply loop_raise_Finished.
Qed.

(** X9. A [next] that raises, be it [StopIteration], the [ValueError] of
    the validation or an exception of the identity function, finishes the
    generator: every later [next] raises [StopIteration] and calls
    nothing, so a rejected element is not validated again and no further
    raw detection is pulled. *)
Theorem generator_finished_after_raise g tr e g' tr' :
  gen_next g tr = (Raise e, g', tr') →
  g' = Finished
  ∧ ∀ n, nexts n g' tr' = (replicate n (Raise StopIteration), Finished, tr').
Proof.
  intros Hnext.
  assert (g' = Finished) as ->.
  { destruct g as [args|args data_uuid dets|]; simpl in Hnext.
    - by eapply start_raise_Finished.
    - by eapply loop_raise_Finished.
    - by injection Hnext as _ <- _. }
  split; [done|]. intros n. apply nexts_Finished.
Qed.

End generator_properties.

(* ================================================================== *)
(** * Further properties of [ImageMatrixObjectDetector] *)
(* ================================================================== *)

Section image_matrix_runs.
Import ObjectDetector.
Context {C L P Mat It : Type} `{!PyStr C, !PyStr L}.
Context `{!Iterator It (AxisAlignedBoundingBox C * list (L * P))}.

Implicit Types (self : ImageMatrixObjectDetector.t Mat It)
  (data : DataElement) (de_f : DetectionElementFactory C L P)
  (ce_f : ClassificationElementFactory L P) (tr : trace).

(** X10. Detection through the image-matrix detector, end to end: when
    the reader accepts the element and loads a matrix, the generator
    yields one assembled detection element for each raw detection that
    [_detect_objects_matrix] gives for that matrix, in order, and then
    stops (every raw detection having an identifier). *)
Theorem image_matrix_detect_objects self data de_f ce_f mat raws tr fuel :
  classification_factory_ok ce_f →
  detection_factory_ok de_f →
  ImageReader.is_valid_element
    (ImageMatrixObjectDetector._image_reader self) data = true →
  ImageReader.load_as_matrix
    (ImageMatrixObjectDetector._image_reader self) data = Some mat →
  yields (ImageMatrixObjectDetector._detect_objects_matrix self mat) raws →
  Forall (λ r : AxisAlignedBoundingBox C * list (L * P),
            is_Ok (_gen_detection_uuid (str (uuid data)) r.1 (keys r.2)))
    raws →
  (length raws < fuel)%nat →
  ∃ des tr',
    consume fuel
      (Created (Frame (ImageMatrixObjectDetector.as_ObjectDetector self)
                  data de_f ce_f)) tr
    = (des, Some StopIteration, tr')
    ∧ Forall2 (assembled (str (uuid data))) raws des.
Proof.
  intros Hce Hde Hv Hload Hy Hok Hfuel.
  set (args := Frame (ImageMatrixObjectDetector.as_ObjectDetector self)
                 data de_f ce_f).
  destruct (consume_loop args (str (uuid data))
              (ImageMatrixObjectDetector._detect_objects_matrix self mat)
              raws
              (tr ++ [E_raise_valid_element data; E_detect_objects data])
              fuel Hce Hde Hy Hok Hfuel) as (des & tr' & Hc & Hall).
  exists des, tr'. split; [|done].
  destruct fuel as [|fuel]; [lia|].
  simpl in Hc |- *.
  rewrite (start_accepted args
             (ImageMatrixObjectDetector._detect_objects_matrix self mat) tr);
    [done | done |].
  simpl. unfold ImageMatrixObjectDetector._detect_objects. by rewrite Hload.
Qed.

(** X11. For the image-matrix detector the reader alone decides what
    happens before any matrix is seen: if the reader's
    [is_valid_element] rejects the element, the first [next] raises
    [ValueError] after the validation only, whatever
    [valid_content_types()] lists; if it accepts and [load_as_matrix]
    gives [None], the first [next] raises [StopIteration] after the raw
    detection step. In both cases [_detect_objects_matrix] plays no
    part and no factory is called. *)
Theorem image_matrix_reader_decides self data de_f ce_f tr :
  let g := Created (Frame (ImageMatrixObjectDetector.as_ObjectDetector self)
                      data de_f ce_f) in
  (ImageReader.is_valid_element
     (ImageMatrixObjectDetector._image_reader self) data = false →
   gen_next g tr
   = (Raise ValueError, Finished, tr ++ [E_raise_valid_element data]))
  ∧ (ImageReader.is_valid_element
       (ImageMatrixObjectDetector._image_reader self) data = true →
     ImageReader.load_as_matrix
       (ImageMatrixObjectDetector._image_reader self) data = None →
     gen_next g tr
     = (Raise StopIteration, Finished,
        tr ++ [E_raise_valid_element data; E_detect_objects data])).
Proof.
  intros g. split.
  - intros Hv. simpl. unfold start, raise_valid_element. simpl.
    unfold ImageMatrixObjectDetector.is_valid_element. by rewrite Hv.
  - intros Hv Hload. simpl. unfold start, raise_valid_element. simpl.
    unfold ImageMatrixObjectDetector.is_valid_element,
      ImageMatrixObjectDetector._detect_objects.
    rewrite Hv, Hload. by rewrite <- app_assoc.
Qed.

End image_matrix_runs.

Section configuration.
Import Heap ImageMatrixObjectDetector.
Context {Inst : Type}.
Implicit Types (h : heap Inst) (d : dict Inst) (l : loc)
  (from_config_dict : value Inst → M Inst Inst)
  (super_from_config : loc → bool → M Inst Inst).

Lemma alloc_new d h :
  ∃ l, alloc d h = (Ok l, <[l := d]> h) ∧ h !! l = None.
Proof.
  exists (fresh (dom h)). split; [done|].
  apply not_elem_of_dom, is_fresh.
Qed.

(** [from_config] step by step, for any collaborators: [l1] is the copy,
    [l2] the default [{}]. *)
Lemma from_config_unfold config_dict (merge_default : bool) h d :
  h !! config_dict = Some d →
  ∃ l1 l2,
    l1 ≠ config_dict ∧ l2 ≠ config_dict ∧ l2 ≠ l1
    ∧ h !! l1 = None ∧ h !! l2 = None
    ∧ ∀ from_config_dict super_from_config,
        from_config from_config_dict super_from_config config_dict
          merge_default h
        = match from_config_dict (default (VRef l2) (d !! image_reader_key))
                  (<[l2 := ∅]> (<[l1 := d]> h))
          with
          | (Raise e, h3) => (Raise e, h3)
          | (Ok reader, h3) =>
              match h3 !! l1 with
              | Some d' =>
                  super_from_config l1 merge_default
                    (<[l1 := <[image_reader_key := VInst reader]> d']> h3)
              | None => (Raise TypeError, h3)
              end
          end.
Proof.
  intros Hl.
  destruct (alloc_new d h) as (l1 & Ha1 & Hnew1).
  destruct (alloc_new ∅ (<[l1 := d]> h)) as (l2 & Ha2 & Hnew2).
  assert (l1 ≠ config_dict) as Hne1 by (intros ->; congruence).
  assert (l2 ≠ l1) as Hne21.
  { intros ->. by rewrite lookup_insert_eq in Hnew2. }
  assert (h !! l2 = None) as Hnew2'.
  { by rewrite lookup_insert_ne in Hnew2. }
  assert (l2 ≠ config_dict) as Hne2 by (intros ->; congruence).
  exists l1, l2. split_and!; try done.
  intros from_config_dict super_from_config.
  unfold from_config, Heap.bind.
  rewrite (dict_copy_Some h config_dict d Hl), Ha1, Ha2.
  assert (<[l2 := ∅]> (<[l1 := d]> h) !! l1 = Some d) as Hcopy.
  { rewrite lookup_insert_ne by done. by rewrite lookup_insert_eq. }
  rewrite (dict_get_Some _ l1 d _ _ Hcopy).
  destruct (from_config_dict _ _) as [[reader|e] h3]; [|done].
  unfold dict_setitem. by destruct (h3 !! l1).
Qed.

(** X12. If resolving the reader raises, [from_config] raises the same
    exception and the inherited constructor is not run. The reader is
    resolved from the caller's own ['image_reader'] value when there is
    one (the nested object, not a copy of it) and from a new, empty dict
    when the key is missing; at that point no dict object that existed
    before the call has changed. *)
Theorem from_config_reader_error config_dict (merge_default : bool) h d :
  h !! config_dict = Some d →
  ∃ nested h2,
    (∀ l, is_Some (h !! l) → h2 !! l = h !! l)
    ∧ match d !! image_reader_key with
      | Some v => nested = v
      | None => ∃ l2, nested = VRef l2 ∧ h !! l2 = None ∧ h2 !! l2 = Some ∅
      end
    ∧ ∀ from_config_dict super_from_config e h3,
        from_config_dict nested h2 = (Raise e, h3) →
        from_config from_config_dict super_from_config config_dict
          merge_default h = (Raise e, h3).
Proof.
  intros Hl.
  destruct (from_config_unfold config_dict merge_default h d Hl)
    as (l1 & l2 & Hne1 & Hne2 & Hne21 & Hnew1 & Hnew2 & Hrun).
  exists (default (VRef l2) (d !! image_reader_key)),
    (<[l2 := ∅]> (<[l1 := d]> h)).
  split_and!.
  - intros l [x Hx]. rewrite !lookup_insert_ne; [done | |]; congruence.
  - destruct (d !! image_reader_key); simpl; [done|].
    exists l2. split_and!; [done | done | by rewrite lookup_insert_eq].
  - intros from_config_dict super_from_config e h3 Hraise.
    by rewrite Hrun, Hraise.
Qed.

(** X13. If the reader is resolved and the copy is still what it was,
    [from_config] is the inherited constructor applied, with
    [merge_default] as given, to a dict object that did not exist before
    the call and holds the caller's entries with ['image_reader']
    replaced by the reader instance; every other key has the caller's
    value. *)
Theorem from_config_hands_over_copy config_dict (merge_default : bool) h d :
  h !! config_dict = Some d →
  ∃ l1 nested h2,
    l1 ≠ config_dict ∧ h !! l1 = None ∧ h2 !! l1 = Some d
    ∧ ∀ from_config_dict super_from_config reader h3,
        from_config_dict nested h2 = (Ok reader, h3) →
        h3 !! l1 = Some d →
        ∃ h4,
          from_config from_config_dict super_from_config config_dict
            merge_default h = super_from_config l1 merge_default h4
          ∧ (∃ d4, h4 !! l1 = Some d4
                   ∧ d4 !! image_reader_key = Some (VInst reader)
                   ∧ ∀ k, k ≠ image_reader_key → d4 !! k = d !! k)
          ∧ ∀ l, l ≠ l1 → h4 !! l = h3 !! l.
Proof.
  intros Hl.
  destruct (from_config_unfold config_dict merge_default h d Hl)
    as (l1 & l2 & Hne1 & Hne2 & Hne21 & Hnew1 & Hnew2 & Hrun).
  exists l1, (default (VRef l2) (d !! image_reader_key)),
    (<[l2 := ∅]> (<[l1 := d]> h)).
  split_and!; try done.
  { rewrite lookup_insert_ne by done. by rewrite lookup_insert_eq. }
  intros from_config_dict super_from_config reader h3 Hok Hcopy.
  exists (<[l1 := <[image_reader_key := VInst reader]> d]> h3).
  split_and!.
  - by rewrite Hrun, Hok, Hcopy.
  - exists (<[image_reader_key := VInst reader]> d). split_and!.
    + by rewrite lookup_insert_eq.
    + by rewrite lookup_insert_eq.
    + intros k Hk. by rewrite lookup_insert_ne.
  - intros l Hne. by rewrite lookup_insert_ne.
Qed.

End configuration.

Section configuration_round_trips.
Import Heap ImageMatrixObjectDetector.
Context {Inst : Type}.
Implicit Types (h : heap Inst) (d : dict Inst) (l : loc).

(** X14. Round trip of the configuration: [get_config] returns a new dict
    with the single entry ['image_reader'], the block [to_config_dict]
    wrote for the stored reader. Handed to [from_config], that block is
    the one resolved; if it resolves back to the reader, the inherited
    constructor receives a dict whose only entry is the reader instance
    itself. *)
Theorem get_config_from_config
    (to_config_dict : Inst → M Inst (value Inst)) (image_reader : Inst)
    (merge_default : bool) h v h' :
  to_config_dict image_reader h = (Ok v, h') →
  ∃ config_dict cfg l1 h2,
    get_config to_config_dict image_reader h = (Ok config_dict, cfg)
    ∧ h' !! config_dict = None
    ∧ cfg !! config_dict = Some {[ image_reader_key := v ]}
    ∧ (∀ l, l ≠ config_dict → cfg !! l = h' !! l)
    ∧ l1 ≠ config_dict
    ∧ h2 !! l1 = Some {[ image_reader_key := v ]}
    ∧ ∀ (from_config_dict : value Inst → M Inst Inst)
        (super_from_config : loc → bool → M Inst Inst) h3,
        from_config_dict v h2 = (Ok image_reader, h3) →
        h3 !! l1 = Some {[ image_reader_key := v ]} →
        from_config from_config_dict super_from_config config_dict
          merge_default cfg
        = super_from_config l1 merge_default
            (<[l1 := {[ image_reader_key := VInst image_reader ]}]> h3).
Proof.
  intros Hto.
  destruct (alloc_new ({[ image_reader_key := v ]} : dict Inst) h')
    as (l & Ha & Hnew).
  set (cfg := <[l := {[ image_reader_key := v ]}]> h').
  assert (cfg !! l = Some {[ image_reader_key := v ]}) as Hl
    by apply lookup_insert_eq.
  destruct (from_config_unfold l merge_default cfg _ Hl)
    as (l1 & l2 & Hne1 & Hne2 & Hne21 & Hnew1 & Hnew2 & Hrun).
  exists l, cfg, l1,
    (<[l2 := ∅]> (<[l1 := {[ image_reader_key := v ]}]> cfg)).
  split_and!; try done.
  - unfold get_config, Heap.bind. by rewrite Hto, Ha.
  - intros l' Hne. unfold cfg. by rewrite lookup_insert_ne.
  - rewrite lookup_insert_ne by done. by rewrite lookup_insert_eq.
  - intros from_config_dict super_from_config h3 Hok Hcopy.
    rewrite Hrun, lookup_singleton_eq. simpl. rewrite Hok, Hcopy.
    by rewrite insert_singleton_eq.
Qed.

(** X15. [get_default_config] returns the very dict object the inherited
    method returned, with ['image_reader'] set to the block
    [make_default_config] produced (over whatever was there) and nothing
    else changed. Handed to [from_config], that block is the one
    resolved, and the inherited constructor receives the inherited
    defaults with the reader instance in its place. *)
Theorem get_default_config_from_config
    (super_get_default_config : M Inst loc)
    (make_default_config : M Inst (value Inst))
    (merge_default : bool) h l0 h0 d0 v h1 :
  super_get_default_config h = (Ok l0, h0) →
  make_default_config h0 = (Ok v, h1) →
  h1 !! l0 = Some d0 →
  ∃ cfg l1 h2,
    get_default_config super_get_default_config make_default_config h
    = (Ok l0, cfg)
    ∧ cfg !! l0 = Some (<[image_reader_key := v]> d0)
    ∧ (∀ l, l ≠ l0 → cfg !! l = h1 !! l)
    ∧ l1 ≠ l0
    ∧ h2 !! l1 = Some (<[image_reader_key := v]> d0)
    ∧ ∀ (from_config_dict : value Inst → M Inst Inst)
        (super_from_config : loc → bool → M Inst Inst) reader h3,
        from_config_dict v h2 = (Ok reader, h3) →
        h3 !! l1 = Some (<[image_reader_key := v]> d0) →
        from_config from_config_dict super_from_config l0 merge_default cfg
        = super_from_config l1 merge_default
            (<[l1 := <[image_reader_key := VInst reader]> d0]> h3).
Proof.
  intros Hsuper Hmake Hl0.
  set (cfg := <[l0 := <[image_reader_key := v]> d0]> h1).
  assert (cfg !! l0 = Some (<[image_reader_key := v]> d0)) as Hl
    by apply lookup_insert_eq.
  destruct (from_config_unfold l0 merge_default cfg _ Hl)
    as (l1 & l2 & Hne1 & Hne2 & Hne21 & Hnew1 & Hnew2 & Hrun).
  exists cfg, l1,
    (<[l2 := ∅]> (<[l1 := <[image_reader_key := v]> d0]> cfg)).
  split_and!; try done.
  - unfold get_default_config, Heap.bind, dict_setitem, ret.
    by rewrite Hsuper, Hmake, Hl0.
  - intros l' Hne. unfold cfg. by rewrite lookup_insert_ne.
  - rewrite lookup_insert_ne by done. by rewrite lookup_insert_eq.
  - intros from_config_dict super_from_config reader h3 Hok Hcopy.
    rewrite Hrun, lookup_insert_eq. simpl. rewrite Hok, Hcopy.
    by rewrite insert_insert_eq.
Qed.

End configuration_round_trips.

(* ================================================================== *)
(** * The further properties at concrete inputs *)
(* ================================================================== *)

Section further_examples.
Import ObjectDetector Sample.
Open Scope Z_scope.

Lemma gen_detection_uuid_is_hex_witness :
  _gen_detection_uuid (lit "abc123") (AABB [0; 0] [10; 10])
    [lit "dog"; lit "cat"]
  = Ok (lit "f0db4c48f4ce9852a2b96ebd991a704f4736b489")
  ∧ length (lit "f0db4c48f4ce9852a2b96ebd991a704f4736b489") = 40%nat
  ∧ Forall (λ c, 48 ≤ c ≤ 57 ∨ 97 ≤ c ≤ 102)%N
      (lit "f0db4c48f4ce9852a2b96ebd991a704f4736b489").
Proof.
  split; [exact gen_detection_uuid_scenario|].
  exact (gen_detection_uuid_is_hex (lit "abc123") (AABB [0; 0] [10; 10])
           [lit "dog"; lit "cat"] _ gen_detection_uuid_scenario).
Defined.

Lemma gen_detection_uuid_first_four_witness :
  take 4 ([0; 0; 0] ++ [10; 20; 30]) = take 4 ([0; 0; 0] ++ [10; 99; 77])
  ∧ _gen_detection_uuid (lit "abc123") (AABB [0; 0; 0] [10; 20; 30])
      [lit "cat"]
    = _gen_detection_uuid (lit "abc123") (AABB [0; 0; 0] [10; 99; 77])
        [lit "cat"].
Proof.
  split; [reflexivity|].
  by apply gen_detection_uuid_first_four.
Defined.

Lemma gen_detection_uuid_str_coercion_witness :
  map str [1; 2] ≡ₚ map str [lit "2"; lit "1"]
  ∧ _gen_detection_uuid (lit "abc123") (AABB [0; 0] [10; 10]) [1; 2]
    = _gen_detection_uuid (lit "abc123") (AABB [0; 0] [10; 10])
        [lit "2"; lit "1"].
Proof.
  assert (map str [1; 2] ≡ₚ map str [lit "2"; lit "1"]) as Hp
    by (vm_compute; apply perm_swap).
  split; [exact Hp|].
  by apply gen_detection_uuid_str_coercion.
Defined.

Lemma gen_detection_uuid_empty_label_witness :
  str ([] : pystr) = []
  ∧ _gen_detection_uuid (lit "abc123") (AABB [0; 0] [10; 10])
      ([lit "cat"] ++ [] :: [lit "dog"])
    = _gen_detection_uuid (lit "abc123") (AABB [0; 0] [10; 10])
        ([lit "cat"] ++ [lit "dog"]).
Proof.
  split; [reflexivity|].
  by apply gen_detection_uuid_empty_label.
Defined.

Lemma cat_dog_uuid :
  _gen_detection_uuid (str (uuid png)) cat_dog.1 (keys cat_dog.2)
  = Ok (lit "f0db4c48f4ce9852a2b96ebd991a704f4736b489").
Proof. vm_compute. reflexivity. Qed.

Lemma dog_cat_uuid :
  _gen_detection_uuid (str (uuid png)) dog_cat.1 (keys dog_cat.2)
  = Ok (lit "f0db4c48f4ce9852a2b96ebd991a704f4736b489").
Proof. vm_compute. reflexivity. Qed.

Lemma segment_uuid :
  _gen_detection_uuid (str (uuid png)) segment.1 (keys segment.2)
  = Raise IndexError.
Proof. reflexivity. Qed.

Lemma detect_objects_call_order_witness :
  let args := Frame (detector (Some [cat_dog; dog_cat])) png
                DFLT_DETECTION_FACTORY DFLT_CLASSIFIER_FACTORY in
  let u := lit "f0db4c48f4ce9852a2b96ebd991a704f4736b489" in
  yields [cat_dog; dog_cat] [cat_dog; dog_cat]
  ∧ (nexts 3 (Created args) []).2
    = [] ++ [E_raise_valid_element png; E_detect_objects png]
         ++ flat_map yield_calls [u; u] ++ [E_iter_next].
Proof.
  intros args u. split; [apply yields_list|].
  apply (detect_objects_call_order args [cat_dog; dog_cat]
           [cat_dog; dog_cat] [u; u] []).
  - by vm_compute.
  - reflexivity.
  - apply yields_list.
  - constructor; [exact cat_dog_uuid|].
    constructor; [exact dog_cat_uuid | constructor].
Defined.

Lemma pulls_list {A} (xs ys : list A) : pulls (xs ++ ys) xs ys.
Proof.
  induction xs as [|x xs IH]; [constructor|].
  by apply (pulls_cons _ x (xs ++ ys)).
Qed.

Lemma detect_objects_fails_midway_witness :
  let args := Frame (detector (Some [cat_dog; segment; dog_cat])) png
                DFLT_DETECTION_FACTORY DFLT_CLASSIFIER_FACTORY in
  let u := lit "f0db4c48f4ce9852a2b96ebd991a704f4736b489" in
  pulls [cat_dog; segment; dog_cat] ([cat_dog] ++ [segment]) [dog_cat]
  ∧ ∃ des,
      length des = 1%nat
      ∧ nexts 2 (Created args) []
        = ((Ok <$> des) ++ [Raise IndexError], Finished,
           [] ++ [E_raise_valid_element png; E_detect_objects png]
              ++ flat_map yield_calls [u] ++ [E_iter_next]).
Proof.
  intros args u.
  assert (pulls [cat_dog; segment; dog_cat] ([cat_dog] ++ [segment])
            [dog_cat]) as Hp
    by apply (pulls_list [cat_dog; segment] [dog_cat]).
  split; [exact Hp|].
  apply (detect_objects_fails_midway args [cat_dog; segment; dog_cat]
           [cat_dog] segment [dog_cat] [u] IndexError []).
  - by vm_compute.
  - reflexivity.
  - exact Hp.
  - constructor; [exact cat_dog_uuid | constructor].
  - exact segment_uuid.
Defined.

Lemma pulls_endless n m :
  pulls (Endless n) (map nth_cat (seq n m)) (Endless (n + m)).
Proof.
  revert n. induction m as [|m IH]; intros n; simpl.
  - rewrite Nat.add_0_r. constructor.
  - apply (pulls_cons _ _ (Endless (S n))); [reflexivity|].
    rewrite <- Nat.add_succ_comm. apply IH.
Qed.

Lemma detect_objects_lazy_witness :
  let args := Frame endless_detector png
                DFLT_DETECTION_FACTORY DFLT_CLASSIFIER_FACTORY in
  let u0 := lit "97d0f17c1123dfd6e0d08aa521e3894aab729080" in
  let u1 := lit "d95083fc80b01f92bd44db1299c606af7388fe1a" in
  pulls (Endless 0) [nth_cat 0; nth_cat 1] (Endless 2)
  ∧ ∃ des,
      length des = 2%nat
      ∧ nexts 2 (Created args) []
        = (Ok <$> des, Suspended args (str (uuid png)) (Endless 2),
           [] ++ [E_raise_valid_element png; E_detect_objects png]
              ++ flat_map yield_calls [u0; u1]).
Proof.
  intros args u0 u1.
  assert (pulls (Endless 0) [nth_cat 0; nth_cat 1] (Endless 2)) as Hp
    by apply (pulls_endless 0 2).
  split; [exact Hp|].
  apply (detect_objects_lazy args (Endless 0) [nth_cat 0; nth_cat 1]
           (Endless 2) [u0; u1] []).
  - by vm_compute.
  - reflexivity.
  - exact Hp.
  - done.
  - constructor; [vm_compute; reflexivity|].
    constructor; [vm_compute; reflexivity | constructor].
Defined.

Lemma generator_finished_after_raise_witness :
  gen_next (gen (Some [cat_dog]) txt) []
  = (Raise ValueError, Finished, [E_raise_valid_element txt])
  ∧ ∀ n,
      nexts n (Finished : generator Z pystr Q (list raw))
        [E_raise_valid_element txt]
      = (replicate n (Raise StopIteration), Finished,
         [E_raise_valid_element txt]).
Proof.
  assert (gen_next (gen (Some [cat_dog]) txt) []
          = (Raise ValueError, Finished, [E_raise_valid_element txt])) as Hn
    by (vm_compute; reflexivity).
  split; [exact Hn|].
  exact (proj2 (generator_finished_after_raise _ _ _ _ _ Hn)).
Defined.

Lemma image_matrix_detect_objects_witness :
  ImageReader.is_valid_element reader png = true
  ∧ ImageReader.load_as_matrix reader png = Some [[0; 0]; [0; 0]]
  ∧ ∃ des tr',
      consume 2
        (Created (Frame
                    (ImageMatrixObjectDetector.as_ObjectDetector
                       matrix_detector)
                    png DFLT_DETECTION_FACTORY DFLT_CLASSIFIER_FACTORY)) []
      = (des, Some StopIteration, tr')
      ∧ Forall2 (assembled (str (uuid png))) [cat_dog] des.
Proof.
  split; [by vm_compute|]. split; [by vm_compute|].
  apply (image_matrix_detect_objects matrix_detector png
           DFLT_DETECTION_FACTORY DFLT_CLASSIFIER_FACTORY
           [[0; 0]; [0; 0]] [cat_dog] [] 2).
  - done.
  - done.
  - by vm_compute.
  - by vm_compute.
  - apply (yields_list [cat_dog]).
  - constructor; [|constructor]. eexists. exact cat_dog_uuid.
  - simpl. lia.
Defined.

Lemma image_matrix_reader_decides_witness :
  let g d := Created (Frame
                        (ImageMatrixObjectDetector.as_ObjectDetector
                           matrix_detector)
                        d DFLT_DETECTION_FACTORY DFLT_CLASSIFIER_FACTORY) in
  ImageReader.is_valid_element reader txt = false
  ∧ gen_next (g txt) []
    = (Raise ValueError, Finished, [] ++ [E_raise_valid_element txt])
  ∧ ImageReader.is_valid_element reader broken = true
  ∧ ImageReader.load_as_matrix reader broken = None
  ∧ gen_next (g broken) []
    = (Raise StopIteration, Finished,
       [] ++ [E_raise_valid_element broken; E_detect_objects broken]).
Proof.
  intros g.
  assert (ImageReader.is_valid_element reader txt = false) as Hrej
    by (by vm_compute).
  assert (ImageReader.is_valid_element reader broken = true) as Hacc
    by (by vm_compute).
  assert (ImageReader.load_as_matrix reader broken = None) as Hload
    by (by vm_compute).
  split; [exact Hrej|]. split.
  { exact (proj1 (image_matrix_reader_decides matrix_detector txt
                    DFLT_DETECTION_FACTORY DFLT_CLASSIFIER_FACTORY [])
             Hrej). }
  split; [exact Hacc|]. split; [exact Hload|].
  exact (proj2 (image_matrix_reader_decides matrix_detector broken
                  DFLT_DETECTION_FACTORY DFLT_CLASSIFIER_FACTORY [])
           Hacc Hload).
Defined.

End further_examples.

Section configuration_examples.
Import Heap ImageMatrixObjectDetector.

Lemma super_from_config_reader (l : loc) (merge_default : bool)
    (h : heap pystr) (d : dict pystr) (image_reader : pystr) :
  h !! l = Some d →
  d !! image_reader_key = Some (VInst image_reader) →
  Sample.super_from_config l merge_default h = (Ok image_reader, h).
Proof. intros Hl Hd. unfold Sample.super_from_config. by rewrite Hl, Hd. Qed.

Lemma from_config_reader_error_witness :
  let d : dict pystr := {[ image_reader_key := VNone ]} in
  let h : heap pystr := {[ 1%positive := d ]} in
  h !! 1%positive = Some d
  ∧ (from_config Sample.from_config_dict Sample.super_from_config
       1%positive true h).1 = Raise ValueError.
Proof.
  intros d h.
  assert (h !! 1%positive = Some d) as Hl by apply lookup_singleton_eq.
  split; [exact Hl|].
  destruct (from_config_reader_error 1%positive true h d Hl)
    as (nested & h2 & _ & Hnested & Hraise).
  unfold d in Hnested. rewrite lookup_singleton_eq in Hnested. subst nested.
  by rewrite (Hraise Sample.from_config_dict Sample.super_from_config
                ValueError h2 eq_refl).
Defined.

Lemma from_config_hands_over_copy_witness :
  let d : dict pystr := {[ image_reader_key := VStr (lit "reader") ]} in
  let h : heap pystr := {[ 1%positive := d ]} in
  h !! 1%positive = Some d
  ∧ (from_config (λ _ h', (Ok (lit "reader"), h'))
       Sample.super_from_config 1%positive true h).1 = Ok (lit "reader").
Proof.
  intros d h.
  assert (h !! 1%positive = Some d) as Hl by apply lookup_singleton_eq.
  split; [exact Hl|].
  destruct (from_config_hands_over_copy 1%positive true h d Hl)
    as (l1 & nested & h2 & _ & _ & Hcopy & Hrun).
  destruct (Hrun (λ _ h', (Ok (lit "reader"), h'))
              Sample.super_from_config (lit "reader") h2 eq_refl Hcopy)
    as (h4 & -> & (d4 & Hl4 & Hreader & _) & _).
  by rewrite (super_from_config_reader l1 true h4 d4 (lit "reader")).
Defined.

Lemma get_config_from_config_witness :
  Sample.to_config_dict (lit "reader") ∅ = (Ok (VStr (lit "reader")), ∅)
  ∧ ∃ config_dict cfg,
      get_config Sample.to_config_dict (lit "reader") ∅
      = (Ok config_dict, cfg)
      ∧ (from_config Sample.from_config_dict Sample.super_from_config
           config_dict true cfg).1 = Ok (lit "reader").
Proof.
  split; [reflexivity|].
  destruct (get_config_from_config Sample.to_config_dict (lit "reader")
              true ∅ (VStr (lit "reader")) ∅ eq_refl)
    as (config_dict & cfg & l1 & h2 & Hget & _ & _ & _ & _ & Hcopy & Hrun).
  exists config_dict, cfg. split; [exact Hget|].
  rewrite (Hrun Sample.from_config_dict Sample.super_from_config h2
             eq_refl Hcopy).
  erewrite super_from_config_reader; [done | apply lookup_insert_eq |].
  apply lookup_singleton_eq.
Defined.

Lemma get_default_config_from_config_witness :
  let super_get_default_config : M pystr loc :=
    λ h, (Ok 1%positive, <[1%positive := ∅]> h) in
  let make_default_config : M pystr (value pystr) :=
    λ h, (Ok (VStr (lit "reader")), h) in
  super_get_default_config ∅ = (Ok 1%positive, {[ 1%positive := ∅ ]})
  ∧ make_default_config {[ 1%positive := ∅ ]}
    = (Ok (VStr (lit "reader")), {[ 1%positive := ∅ ]})
  ∧ ({[ 1%positive := ∅ ]} : heap pystr) !! 1%positive = Some ∅
  ∧ ∃ cfg,
      get_default_config super_get_default_config make_default_config ∅
      = (Ok 1%positive, cfg)
      ∧ cfg !! 1%positive
        = Some (<[image_reader_key := VStr (lit "reader")]> ∅)
      ∧ (from_config Sample.from_config_dict Sample.super_from_config
           1%positive true cfg).1 = Ok (lit "reader").
Proof.
  intros super_get_default_config make_default_config.
  assert (super_get_default_config ∅
          = (Ok 1%positive, {[ 1%positive := ∅ ]})) as Hsuper.
  { unfold super_get_default_config. by rewrite insert_empty. }
  assert (({[ 1%positive := ∅ ]} : heap pystr) !! 1%positive = Some ∅)
    as Hl0 by apply lookup_singleton_eq.
  split; [exact Hsuper|]. split; [reflexivity|]. split; [exact Hl0|].
  destruct (get_default_config_from_config super_get_default_config
              make_default_config true ∅ 1%positive {[ 1%positive := ∅ ]}
              ∅ (VStr (lit "reader")) {[ 1%positive := ∅ ]}
              Hsuper eq_refl Hl0)
    as (cfg & l1 & h2 & Hget & Hcfg & _ & _ & Hcopy & Hrun).
  exists cfg. split; [exact Hget|]. split; [exact Hcfg|].
  rewrite (Hrun Sample.from_config_dict Sample.super_from_config
             (lit "reader") h2 eq_refl Hcopy).
  erewrite super_from_config_reader; [done | apply lookup_insert_eq |].
  apply lookup_insert_eq.
Defined.

End configuration_examples.
